(** * node-disk-manager: DiskInfo and its projection to the Disk resource

    A shallow embedding of [cmd/ndm_daemonset/controller/disk.go] (the
    [DiskInfo] aggregate, [NewDiskInfo], [ToDisk], [ToPartition] and the
    getters they call) together with the exported types of
    [pkg/apis/openebs/v1alpha1] that those functions build. *)

From Stdlib Require Import ZArith String List PrimFloat.
From stdpp Require Import base option list strings gmap fin_maps.

Local Open Scope string_scope.
Local Open Scope Z_scope.

(** * Go values *)

Module Go.

(** Fixed-width numbers.  The projection only copies them, so each is kept
    as the mathematical integer it denotes; the zero value is [0]. *)
Definition uint16 : Type := Z.
Definition uint32 : Type := Z.
Definition uint64 : Type := Z.
Definition int16 : Type := Z.
Definition float64 : Type := PrimFloat.float.

(** A slice is either [nil] or a (possibly empty) sequence of elements.
    [len], [range] and [append] accept both; only the encoder tells them
    apart ([null] against [[]]). *)
Inductive slice (A : Type) : Type :=
| nil_slice
| mk_slice (elems : list A).
Arguments nil_slice {A}.
Arguments mk_slice {A} elems.

(** [make([]A, 0)] *)
Definition make_slice {A : Type} : slice A := mk_slice [].

(** The elements a [range] loop visits, in order. *)
Definition elems {A : Type} (s : slice A) : list A :=
  match s with
  | nil_slice => []
  | mk_slice l => l
  end.

Definition len {A : Type} (s : slice A) : nat := length (elems s).

(** [append(s, x)]: the result is never [nil]. *)
Definition append {A : Type} (s : slice A) (x : A) : slice A :=
  mk_slice (elems s ++ [x]).

(** A [map[string]string] is either [nil] or a finite map. *)
Inductive map : Type :=
| nil_map
| mk_map (m : gmap string string).

(** [make(map[string]string)] *)
Definition make_map : map := mk_map ∅.

(** [m[k]] as an expression: a missing key, and any key of a [nil] map,
    reads as the zero value of [string]. *)
Definition index (m : map) (k : string) : string :=
  match m with
  | nil_map => ""
  | mk_map g => default "" (g !! k)
  end.

(** [m[k] = v]: an assignment to an entry of a [nil] map panics ([None]). *)
Definition assign (m : map) (k v : string) : option map :=
  match m with
  | nil_map => None
  | mk_map g => Some (mk_map (<[k:=v]> g))
  end.

(** [_, ok := m[k]]: whether the map has an entry under [k]. *)
Definition contains (m : map) (k : string) : bool :=
  match m with
  | nil_map => false
  | mk_map g => match g !! k with Some _ => true | None => false end
  end.

(** [len(m)] *)
Definition map_len (m : map) : nat :=
  match m with
  | nil_map => 0%nat
  | mk_map g => size g
  end.

End Go.

(** * k8s.io/apimachinery/pkg/apis/meta/v1

    Only the fields the controller writes; every other field of the two
    structs keeps its zero value. *)

Module metav1.

Module TypeMeta.
Record t : Type := mk {
  Kind : string;
  APIVersion : string
}.
End TypeMeta.

Module ObjectMeta.
Record t : Type := mk {
  Name : string;
  Labels : Go.map
}.
Definition set_Labels (l : Go.map) (o : t) : t :=
  {| Name := o.(Name); Labels := l |}.
End ObjectMeta.

End metav1.

(** * pkg/apis/openebs/v1alpha1 *)

Module apis.

(** [FileSystemInfo] of blockdevice_types.go.  The field [Type] is spelled
    [Type_] here. *)
Module FileSystemInfo.
Record t : Type := mk {
  Type_ : string;
  Mountpoint : string
}.
Definition zero : t := {| Type_ := ""; Mountpoint := "" |}.
Definition set_Type (v : string) (f : t) : t :=
  {| Type_ := v; Mountpoint := f.(Mountpoint) |}.
Definition set_Mountpoint (v : string) (f : t) : t :=
  {| Type_ := f.(Type_); Mountpoint := v |}.

(** Modelled from the spec: the encoder of the exported resource
    (encoding/json) is not among the sources.  The spec has the exported
    form omit a field, and the struct's tags say when: a string field
    tagged [omitempty] is left out exactly when it is the empty string.
    Only the keys that are written are modelled; how the encoder writes a
    value (escaping, replacement of bytes that are not UTF-8) is not. *)
Definition omitempty (key value : string) : list string :=
  if decide (value = "") then [] else [key].

(** The keys the encoder writes for the struct, from its tags
    [json:"fsType,omitempty"] and [json:"mountPoint,omitempty"]. *)
Definition json_fields (f : t) : list string :=
  omitempty "fsType" f.(Type_) ++ omitempty "mountPoint" f.(Mountpoint).
End FileSystemInfo.

(** Modelled from the spec: the declarations of [DiskDevLink],
    [DiskCapacity], [DiskDetails], [DiskStatus], [Temperature], [DiskStat],
    [DiskSpec], [Partition] and [Disk] are in a file of this package that
    is not among the sources.  Each record has the fields that disk.go
    assigns, which are the ones the spec lists for the exported resource
    (spec: path, capacity, static details, devlinks, filesystem; status:
    lifecycle state; stats: four counters and the temperature sub-block);
    a field the controller never writes stays at its zero value and is
    left out. *)
Module DiskDevLink.
Record t : Type := mk {
  Kind : string;
  Links : Go.slice string
}.
End DiskDevLink.

Module DiskCapacity.
Record t : Type := mk {
  Storage : Go.uint64;
  LogicalSectorSize : Go.uint32;
  PhysicalSectorSize : Go.uint32
}.
End DiskCapacity.

Module DiskDetails.
Record t : Type := mk {
  Model : string;
  Serial : string;
  Vendor : string;
  FirmwareRevision : string;
  Compliance : string;
  DriveType : string;
  RotationRate : Go.uint16
}.
End DiskDetails.

Module DiskStatus.
Record t : Type := mk {
  State : string
}.
End DiskStatus.

Module Temperature.
Record t : Type := mk {
  CurrentTemperature : Go.int16;
  HighestTemperature : Go.int16;
  LowestTemperature : Go.int16
}.
Definition zero : t :=
  {| CurrentTemperature := 0; HighestTemperature := 0; LowestTemperature := 0 |}.
End Temperature.

Module DiskStat.
Record t : Type := mk {
  TotalBytesRead : Go.uint64;
  TotalBytesWritten : Go.uint64;
  DeviceUtilizationRate : Go.float64;
  PercentEnduranceUsed : Go.float64;
  TempInfo : Temperature.t
}.
Definition zero : t :=
  {| TotalBytesRead := 0; TotalBytesWritten := 0;
     DeviceUtilizationRate := 0%float; PercentEnduranceUsed := 0%float;
     TempInfo := Temperature.zero |}.
Definition set_TempInfo (v : Temperature.t) (s : t) : t :=
  {| TotalBytesRead := s.(TotalBytesRead);
     TotalBytesWritten := s.(TotalBytesWritten);
     DeviceUtilizationRate := s.(DeviceUtilizationRate);
     PercentEnduranceUsed := s.(PercentEnduranceUsed);
     TempInfo := v |}.
End DiskStat.

Module DiskSpec.
Record t : Type := mk {
  Path : string;
  Capacity : DiskCapacity.t;
  Details : DiskDetails.t;
  DevLinks : Go.slice DiskDevLink.t;
  FileSystem : FileSystemInfo.t
}.
End DiskSpec.

Module Partition.
Record t : Type := mk {
  PartitionType : string;
  FileSystem : FileSystemInfo.t
}.
End Partition.

Module Disk.
Record t : Type := mk {
  TypeMeta : metav1.TypeMeta.t;
  ObjectMeta : metav1.ObjectMeta.t;
  Spec : DiskSpec.t;
  Status : DiskStatus.t;
  Stats : DiskStat.t
}.
End Disk.

End apis.

(** * cmd/ndm_daemonset/controller *)

Module controller.

(** The package-level constants that disk.go names.  Their declarations are
    in other files of package controller (and, for [UDEV_FS_NONE], in
    package udev), so the functions below take them as parameters. *)
Class Constants : Type := {
  NDMDefaultDiskType : string;
  KubernetesHostNameLabel : string;
  HostNameKey : string;
  NDMDiskTypeKey : string;
  NDMManagedKey : string;
  TrueString : string;
  NDMActive : string;
  NDMDiskKind : string;
  NDMVersion : string;
  UDEV_FS_NONE : string
}.

Module FSInfo.
Record t : Type := mk {
  FileSystem : string;
  MountPoint : string
}.
Definition zero : t := {| FileSystem := ""; MountPoint := "" |}.
End FSInfo.

Module PartitionInfo.
Record t : Type := mk {
  PartitionType : string;
  FileSystemInformation : FSInfo.t
}.
End PartitionInfo.

Module ProbeIdentifier.
Record t : Type := mk {
  Uuid : string;
  UdevIdentifier : string;
  SmartIdentifier : string;
  SeachestIdentifier : string;
  MountIdentifier : string
}.
Definition zero : t :=
  {| Uuid := ""; UdevIdentifier := ""; SmartIdentifier := "";
     SeachestIdentifier := ""; MountIdentifier := "" |}.
End ProbeIdentifier.

(** The anonymous struct type of the field [DiskInfo.TemperatureInfo]. *)
Module TemperatureInfo.
Record t : Type := mk {
  TemperatureDataValid : bool;
  CurrentTemperature : Go.int16;
  HighestValid : bool;
  HighestTemperature : Go.int16;
  LowestValid : bool;
  LowestTemperature : Go.int16
}.
Definition zero : t :=
  {| TemperatureDataValid := false; CurrentTemperature := 0;
     HighestValid := false; HighestTemperature := 0;
     LowestValid := false; LowestTemperature := 0 |}.
Definition set_HighestValid (v : bool) (ti : t) : t :=
  {| TemperatureDataValid := ti.(TemperatureDataValid);
     CurrentTemperature := ti.(CurrentTemperature);
     HighestValid := v;
     HighestTemperature := ti.(HighestTemperature);
     LowestValid := ti.(LowestValid);
     LowestTemperature := ti.(LowestTemperature) |}.
Definition set_LowestValid (v : bool) (ti : t) : t :=
  {| TemperatureDataValid := ti.(TemperatureDataValid);
     CurrentTemperature := ti.(CurrentTemperature);
     HighestValid := ti.(HighestValid);
     HighestTemperature := ti.(HighestTemperature);
     LowestValid := v;
     LowestTemperature := ti.(LowestTemperature) |}.
End TemperatureInfo.

Module DiskInfo.
Record t : Type := mk {
  ProbeIdentifiers : ProbeIdentifier.t;
  NodeAttributes : Go.map;
  Uuid : string;
  Capacity : Go.uint64;
  Model : string;
  Serial : string;
  Vendor : string;
  Path : string;
  ByIdDevLinks : Go.slice string;
  ByPathDevLinks : Go.slice string;
  FirmwareRevision : string;
  LogicalSectorSize : Go.uint32;
  PhysicalSectorSize : Go.uint32;
  RotationRate : Go.uint16;
  Compliance : string;
  DiskType : string;
  DriveType : string;
  FileSystemInformation : FSInfo.t;
  PartitionData : Go.slice PartitionInfo.t;
  TotalBytesRead : Go.uint64;
  TotalBytesWritten : Go.uint64;
  DeviceUtilizationRate : Go.float64;
  PercentEnduranceUsed : Go.float64;
  TemperatureInfo : TemperatureInfo.t
}.

(** The value of [DiskInfo{}]: every field at the zero value of its type;
    maps and slices are [nil]. *)
Definition zero : t :=
  {| ProbeIdentifiers := ProbeIdentifier.zero;
     NodeAttributes := Go.nil_map;
     Uuid := ""; Capacity := 0; Model := ""; Serial := ""; Vendor := "";
     Path := "";
     ByIdDevLinks := Go.nil_slice; ByPathDevLinks := Go.nil_slice;
     FirmwareRevision := "";
     LogicalSectorSize := 0; PhysicalSectorSize := 0; RotationRate := 0;
     Compliance := ""; DiskType := ""; DriveType := "";
     FileSystemInformation := FSInfo.zero;
     PartitionData := Go.nil_slice;
     TotalBytesRead := 0; TotalBytesWritten := 0;
     DeviceUtilizationRate := 0%float; PercentEnduranceUsed := 0%float;
     TemperatureInfo := TemperatureInfo.zero |}.

Definition set_NodeAttributes (v : Go.map) (di : t) : t :=
  {| ProbeIdentifiers := di.(ProbeIdentifiers);
     NodeAttributes := v;
     Uuid := di.(Uuid); Capacity := di.(Capacity); Model := di.(Model);
     Serial := di.(Serial); Vendor := di.(Vendor); Path := di.(Path);
     ByIdDevLinks := di.(ByIdDevLinks);
     ByPathDevLinks := di.(ByPathDevLinks);
     FirmwareRevision := di.(FirmwareRevision);
     LogicalSectorSize := di.(LogicalSectorSize);
     PhysicalSectorSize := di.(PhysicalSectorSize);
     RotationRate := di.(RotationRate);
     Compliance := di.(Compliance); DiskType := di.(DiskType);
     DriveType := di.(DriveType);
     FileSystemInformation := di.(FileSystemInformation);
     PartitionData := di.(PartitionData);
     TotalBytesRead := di.(TotalBytesRead);
     TotalBytesWritten := di.(TotalBytesWritten);
     DeviceUtilizationRate := di.(DeviceUtilizationRate);
     PercentEnduranceUsed := di.(PercentEnduranceUsed);
     TemperatureInfo := di.(TemperatureInfo) |}.

Definition set_DiskType (v : string) (di : t) : t :=
  {| ProbeIdentifiers := di.(ProbeIdentifiers);
     NodeAttributes := di.(NodeAttributes);
     Uuid := di.(Uuid); Capacity := di.(Capacity); Model := di.(Model);
     Serial := di.(Serial); Vendor := di.(Vendor); Path := di.(Path);
     ByIdDevLinks := di.(ByIdDevLinks);
     ByPathDevLinks := di.(ByPathDevLinks);
     FirmwareRevision := di.(FirmwareRevision);
     LogicalSectorSize := di.(LogicalSectorSize);
     PhysicalSectorSize := di.(PhysicalSectorSize);
     RotationRate := di.(RotationRate);
     Compliance := di.(Compliance); DiskType := v;
     DriveType := di.(DriveType);
     FileSystemInformation := di.(FileSystemInformation);
     PartitionData := di.(PartitionData);
     TotalBytesRead := di.(TotalBytesRead);
     TotalBytesWritten := di.(TotalBytesWritten);
     DeviceUtilizationRate := di.(DeviceUtilizationRate);
     PercentEnduranceUsed := di.(PercentEnduranceUsed);
     TemperatureInfo := di.(TemperatureInfo) |}.

Definition set_ProbeIdentifiers (v : ProbeIdentifier.t) (di : t) : t :=
  {| ProbeIdentifiers := v;
     NodeAttributes := di.(NodeAttributes);
     Uuid := di.(Uuid); Capacity := di.(Capacity); Model := di.(Model);
     Serial := di.(Serial); Vendor := di.(Vendor); Path := di.(Path);
     ByIdDevLinks := di.(ByIdDevLinks);
     ByPathDevLinks := di.(ByPathDevLinks);
     FirmwareRevision := di.(FirmwareRevision);
     LogicalSectorSize := di.(LogicalSectorSize);
     PhysicalSectorSize := di.(PhysicalSectorSize);
     RotationRate := di.(RotationRate);
     Compliance := di.(Compliance); DiskType := di.(DiskType);
     DriveType := di.(DriveType);
     FileSystemInformation := di.(FileSystemInformation);
     PartitionData := di.(PartitionData);
     TotalBytesRead := di.(TotalBytesRead);
     TotalBytesWritten := di.(TotalBytesWritten);
     DeviceUtilizationRate := di.(DeviceUtilizationRate);
     PercentEnduranceUsed := di.(PercentEnduranceUsed);
     TemperatureInfo := di.(TemperatureInfo) |}.

Definition set_TemperatureInfo (v : TemperatureInfo.t) (di : t) : t :=
  {| ProbeIdentifiers := di.(ProbeIdentifiers);
     NodeAttributes := di.(NodeAttributes);
     Uuid := di.(Uuid); Capacity := di.(Capacity); Model := di.(Model);
     Serial := di.(Serial); Vendor := di.(Vendor); Path := di.(Path);
     ByIdDevLinks := di.(ByIdDevLinks);
     ByPathDevLinks := di.(ByPathDevLinks);
     FirmwareRevision := di.(FirmwareRevision);
     LogicalSectorSize := di.(LogicalSectorSize);
     PhysicalSectorSize := di.(PhysicalSectorSize);
     RotationRate := di.(RotationRate);
     Compliance := di.(Compliance); DiskType := di.(DiskType);
     DriveType := di.(DriveType);
     FileSystemInformation := di.(FileSystemInformation);
     PartitionData := di.(PartitionData);
     TotalBytesRead := di.(TotalBytesRead);
     TotalBytesWritten := di.(TotalBytesWritten);
     DeviceUtilizationRate := di.(DeviceUtilizationRate);
     PercentEnduranceUsed := di.(PercentEnduranceUsed);
     TemperatureInfo := v |}.

(** Further field assignments [di.F = v] that the probes perform. *)
Definition set_ByIdDevLinks (v : Go.slice string) (di : t) : t :=
  {| ProbeIdentifiers := di.(ProbeIdentifiers);
     NodeAttributes := di.(NodeAttributes);
     Uuid := di.(Uuid);
     Capacity := di.(Capacity);
     Model := di.(Model);
     Serial := di.(Serial);
     Vendor := di.(Vendor);
     Path := di.(Path);
     ByIdDevLinks := v;
     ByPathDevLinks := di.(ByPathDevLinks);
     FirmwareRevision := di.(FirmwareRevision);
     LogicalSectorSize := di.(LogicalSectorSize);
     PhysicalSectorSize := di.(PhysicalSectorSize);
     RotationRate := di.(RotationRate);
     Compliance := di.(Compliance);
     DiskType := di.(DiskType);
     DriveType := di.(DriveType);
     FileSystemInformation := di.(FileSystemInformation);
     PartitionData := di.(PartitionData);
     TotalBytesRead := di.(TotalBytesRead);
     TotalBytesWritten := di.(TotalBytesWritten);
     DeviceUtilizationRate := di.(DeviceUtilizationRate);
     PercentEnduranceUsed := di.(PercentEnduranceUsed);
     TemperatureInfo := di.(TemperatureInfo) |}.

Definition set_ByPathDevLinks (v : Go.slice string) (di : t) : t :=
  {| ProbeIdentifiers := di.(ProbeIdentifiers);
     NodeAttributes := di.(NodeAttributes);
     Uuid := di.(Uuid);
     Capacity := di.(Capacity);
     Model := di.(Model);
     Serial := di.(Serial);
     Vendor := di.(Vendor);
     Path := di.(Path);
     ByIdDevLinks := di.(ByIdDevLinks);
     ByPathDevLinks := v;
     FirmwareRevision := di.(FirmwareRevision);
     LogicalSectorSize := di.(LogicalSectorSize);
     PhysicalSectorSize := di.(PhysicalSectorSize);
     RotationRate := di.(RotationRate);
     Compliance := di.(Compliance);
     DiskType := di.(DiskType);
     DriveType := di.(DriveType);
     FileSystemInformation := di.(FileSystemInformation);
     PartitionData := di.(PartitionData);
     TotalBytesRead := di.(TotalBytesRead);
     TotalBytesWritten := di.(TotalBytesWritten);
     DeviceUtilizationRate := di.(DeviceUtilizationRate);
     PercentEnduranceUsed := di.(PercentEnduranceUsed);
     TemperatureInfo := di.(TemperatureInfo) |}.

Definition set_PartitionData (v : Go.slice PartitionInfo.t) (di : t) : t :=
  {| ProbeIdentifiers := di.(ProbeIdentifiers);
     NodeAttributes := di.(NodeAttributes);
     Uuid := di.(Uuid);
     Capacity := di.(Capacity);
     Model := di.(Model);
     Serial := di.(Serial);
     Vendor := di.(Vendor);
     Path := di.(Path);
     ByIdDevLinks := di.(ByIdDevLinks);
     ByPathDevLinks := di.(ByPathDevLinks);
     FirmwareRevision := di.(FirmwareRevision);
     LogicalSectorSize := di.(LogicalSectorSize);
     PhysicalSectorSize := di.(PhysicalSectorSize);
     RotationRate := di.(RotationRate);
     Compliance := di.(Compliance);
     DiskType := di.(DiskType);
     DriveType := di.(DriveType);
     FileSystemInformation := di.(FileSystemInformation);
     PartitionData := v;
     TotalBytesRead := di.(TotalBytesRead);
     TotalBytesWritten := di.(TotalBytesWritten);
     DeviceUtilizationRate := di.(DeviceUtilizationRate);
     PercentEnduranceUsed := di.(PercentEnduranceUsed);
     TemperatureInfo := di.(TemperatureInfo) |}.
End DiskInfo.

(** What a probe does when it sets [di.TemperatureInfo.HighestValid] and
    [di.TemperatureInfo.LowestValid]. *)
Definition with_reading_flags (highestValid lowestValid : bool)
    (di : DiskInfo.t) : DiskInfo.t :=
  DiskInfo.set_TemperatureInfo
    (TemperatureInfo.set_LowestValid lowestValid
       (TemperatureInfo.set_HighestValid highestValid
          (DiskInfo.TemperatureInfo di)))
    di.

(** ** Methods on [*DiskInfo]

    A method with receiver [di *DiskInfo] runs against the struct that [di]
    points to: it may read it, write it, or panic.  [M A] is such a
    computation returning an [A]; the receiver is taken to be non-nil. *)

Inductive outcome (A : Type) : Type :=
| Returns (a : A) (di : DiskInfo.t)
| Panics.
Arguments Returns {A} a di.
Arguments Panics {A}.

Definition M (A : Type) : Type := DiskInfo.t -> outcome A.

Definition ret {A : Type} (a : A) : M A := fun di => Returns a di.

Definition bind {A B : Type} (m : M A) (k : A -> M B) : M B :=
  fun di =>
    match m di with
    | Returns a di' => k a di'
    | Panics => Panics
    end.

(** [di.field] read through the receiver. *)
Definition load {A : Type} (field : DiskInfo.t -> A) : M A :=
  fun di => Returns (field di) di.

(** An operation of the runtime that panics when it yields [None]. *)
Definition try {A : Type} (o : option A) : M A :=
  fun di =>
    match o with
    | Some a => Returns a di
    | None => Panics
    end.

Declare Scope go_scope.
Delimit Scope go_scope with go.
Notation "x <- m ;; k" := (bind m (fun x => k))
  (at level 100, m at next level, right associativity) : go_scope.
Local Open Scope go_scope.

(** A computation that only reads the receiver and cannot panic: from
    every receiver it returns and leaves the receiver as it found it. *)
Definition reads {A : Type} (m : M A) : Prop :=
  forall di, exists a, m di = Returns a di.

Section Getters.
Context {consts : Constants}.

(** [func NewDiskInfo() *DiskInfo]: the struct the returned pointer
    refers to. *)
Definition NewDiskInfo : DiskInfo.t :=
  let nodeAttribute := Go.make_map in
  let diskInfo := DiskInfo.set_NodeAttributes nodeAttribute DiskInfo.zero in
  let diskInfo := DiskInfo.set_DiskType NDMDefaultDiskType diskInfo in
  diskInfo.

(** [func (fs *FSInfo) getFileSystemInfo() apis.FileSystemInfo].  The
    receiver is only read, so the method is a function of the struct. *)
Definition getFileSystemInfo (fs : FSInfo.t) : apis.FileSystemInfo.t :=
  let fsInfo := apis.FileSystemInfo.zero in
  if negb (String.eqb fs.(FSInfo.FileSystem) UDEV_FS_NONE) then
    let fsInfo := apis.FileSystemInfo.set_Type fs.(FSInfo.FileSystem) fsInfo in
    let fsInfo := apis.FileSystemInfo.set_Mountpoint fs.(FSInfo.MountPoint) fsInfo in
    fsInfo
  else fsInfo.

(** [func (di *DiskInfo) getObjectMeta() metav1.ObjectMeta] *)
Definition getObjectMeta : M metav1.ObjectMeta.t :=
  uuid <- load DiskInfo.Uuid ;;
  let objectMeta :=
    {| metav1.ObjectMeta.Labels := Go.make_map;
       metav1.ObjectMeta.Name := uuid |} in
  nodeAttributes <- load DiskInfo.NodeAttributes ;;
  labels <- try (Go.assign objectMeta.(metav1.ObjectMeta.Labels)
                   KubernetesHostNameLabel
                   (Go.index nodeAttributes HostNameKey)) ;;
  let objectMeta := metav1.ObjectMeta.set_Labels labels objectMeta in
  diskType <- load DiskInfo.DiskType ;;
  labels <- try (Go.assign objectMeta.(metav1.ObjectMeta.Labels)
                   NDMDiskTypeKey diskType) ;;
  let objectMeta := metav1.ObjectMeta.set_Labels labels objectMeta in
  labels <- try (Go.assign objectMeta.(metav1.ObjectMeta.Labels)
                   NDMManagedKey TrueString) ;;
  let objectMeta := metav1.ObjectMeta.set_Labels labels objectMeta in
  ret objectMeta.

(** [func (di *DiskInfo) getTypeMeta() metav1.TypeMeta] *)
Definition getTypeMeta : M metav1.TypeMeta.t :=
  let typeMeta :=
    {| metav1.TypeMeta.Kind := NDMDiskKind;
       metav1.TypeMeta.APIVersion := NDMVersion |} in
  ret typeMeta.

(** [func (di *DiskInfo) getStatus() apis.DiskStatus] *)
Definition getStatus : M apis.DiskStatus.t :=
  let diskStatus := {| apis.DiskStatus.State := NDMActive |} in
  ret diskStatus.

(** [func (di *DiskInfo) getPath() string] *)
Definition getPath : M string := load DiskInfo.Path.

(** [func (di *DiskInfo) getDiskDetails() apis.DiskDetails]: seven
    assignments onto [apis.DiskDetails{}], which has no other field. *)
Definition getDiskDetails : M apis.DiskDetails.t :=
  model <- load DiskInfo.Model ;;
  serial <- load DiskInfo.Serial ;;
  vendor <- load DiskInfo.Vendor ;;
  firmwareRevision <- load DiskInfo.FirmwareRevision ;;
  compliance <- load DiskInfo.Compliance ;;
  driveType <- load DiskInfo.DriveType ;;
  rotationRate <- load DiskInfo.RotationRate ;;
  ret {| apis.DiskDetails.Model := model;
         apis.DiskDetails.Serial := serial;
         apis.DiskDetails.Vendor := vendor;
         apis.DiskDetails.FirmwareRevision := firmwareRevision;
         apis.DiskDetails.Compliance := compliance;
         apis.DiskDetails.DriveType := driveType;
         apis.DiskDetails.RotationRate := rotationRate |}.

(** [func (di *DiskInfo) getDiskCapacity() apis.DiskCapacity] *)
Definition getDiskCapacity : M apis.DiskCapacity.t :=
  storage <- load DiskInfo.Capacity ;;
  logicalSectorSize <- load DiskInfo.LogicalSectorSize ;;
  physicalSectorSize <- load DiskInfo.PhysicalSectorSize ;;
  ret {| apis.DiskCapacity.Storage := storage;
         apis.DiskCapacity.LogicalSectorSize := logicalSectorSize;
         apis.DiskCapacity.PhysicalSectorSize := physicalSectorSize |}.

(** [func (di *DiskInfo) getDiskLinks() []apis.DiskDevLink] *)
Definition getDiskLinks : M (Go.slice apis.DiskDevLink.t) :=
  let devLinks := Go.make_slice in
  byId <- load DiskInfo.ByIdDevLinks ;;
  devLinks <-
    (if negb (Nat.eqb (Go.len byId) 0) then
       let byIdLinks :=
         {| apis.DiskDevLink.Kind := "by-id";
            apis.DiskDevLink.Links := byId |} in
       ret (Go.append devLinks byIdLinks)
     else ret devLinks) ;;
  byPath <- load DiskInfo.ByPathDevLinks ;;
  devLinks <-
    (if negb (Nat.eqb (Go.len byPath) 0) then
       let byPathLinks :=
         {| apis.DiskDevLink.Kind := "by-path";
            apis.DiskDevLink.Links := byPath |} in
       ret (Go.append devLinks byPathLinks)
     else ret devLinks) ;;
  ret devLinks.

(** [func (di *DiskInfo) getDiskSpec() apis.DiskSpec] *)
Definition getDiskSpec : M apis.DiskSpec.t :=
  path <- getPath ;;
  capacity <- getDiskCapacity ;;
  details <- getDiskDetails ;;
  devLinks <- getDiskLinks ;;
  fileSystemInformation <- load DiskInfo.FileSystemInformation ;;
  ret {| apis.DiskSpec.Path := path;
         apis.DiskSpec.Capacity := capacity;
         apis.DiskSpec.Details := details;
         apis.DiskSpec.DevLinks := devLinks;
         apis.DiskSpec.FileSystem := getFileSystemInfo fileSystemInformation |}.

(** [func (di *DiskInfo) getStats() apis.DiskStat] *)
Definition getStats : M apis.DiskStat.t :=
  totalBytesRead <- load DiskInfo.TotalBytesRead ;;
  totalBytesWritten <- load DiskInfo.TotalBytesWritten ;;
  deviceUtilizationRate <- load DiskInfo.DeviceUtilizationRate ;;
  percentEnduranceUsed <- load DiskInfo.PercentEnduranceUsed ;;
  let diskStat :=
    {| apis.DiskStat.TotalBytesRead := totalBytesRead;
       apis.DiskStat.TotalBytesWritten := totalBytesWritten;
       apis.DiskStat.DeviceUtilizationRate := deviceUtilizationRate;
       apis.DiskStat.PercentEnduranceUsed := percentEnduranceUsed;
       apis.DiskStat.TempInfo := apis.Temperature.zero |} in
  temperatureInfo <- load DiskInfo.TemperatureInfo ;;
  if Bool.eqb temperatureInfo.(TemperatureInfo.TemperatureDataValid) true then
    let tempInfo :=
      {| apis.Temperature.CurrentTemperature :=
           temperatureInfo.(TemperatureInfo.CurrentTemperature);
         apis.Temperature.HighestTemperature :=
           temperatureInfo.(TemperatureInfo.HighestTemperature);
         apis.Temperature.LowestTemperature :=
           temperatureInfo.(TemperatureInfo.LowestTemperature) |} in
    ret (apis.DiskStat.set_TempInfo tempInfo diskStat)
  else ret diskStat.

(** [func (di *DiskInfo) ToDisk() apis.Disk]: all five fields of
    [apis.Disk{}] are assigned. *)
Definition ToDisk : M apis.Disk.t :=
  typeMeta <- getTypeMeta ;;
  objectMeta <- getObjectMeta ;;
  spec <- getDiskSpec ;;
  status <- getStatus ;;
  stats <- getStats ;;
  ret {| apis.Disk.TypeMeta := typeMeta;
         apis.Disk.ObjectMeta := objectMeta;
         apis.Disk.Spec := spec;
         apis.Disk.Status := status;
         apis.Disk.Stats := stats |}.

(** The body of the [range] loop of [ToPartition]. *)
Definition ToPartition_step (partition : Go.slice apis.Partition.t)
    (partitionData : PartitionInfo.t) : Go.slice apis.Partition.t :=
  Go.append partition
    {| apis.Partition.PartitionType :=
         partitionData.(PartitionInfo.PartitionType);
       apis.Partition.FileSystem :=
         getFileSystemInfo
           partitionData.(PartitionInfo.FileSystemInformation) |}.

(** [func (di *DiskInfo) ToPartition() []apis.Partition] *)
Definition ToPartition : M (Go.slice apis.Partition.t) :=
  let partition := Go.make_slice in
  partitionData <- load DiskInfo.PartitionData ;;
  ret (fold_left ToPartition_step (Go.elems partitionData) partition).

End Getters.

(** Modelled from the spec: the constant declarations are not among the
    sources, and the statements below hold for every choice of them.
    Where a closed example needs actual strings it uses this instance:
    the absent-filesystem sentinel is the spec's "none", the lifecycle
    state is spelled like [BlockDeviceActive] of blockdevice_types.go, the
    default classification stands for the spec's "regular disk", and the
    three label keys are pairwise different, as the spec's three labels
    are. *)
Definition spec_constants : Constants :=
  {| NDMDefaultDiskType := "disk";
     KubernetesHostNameLabel := "kubernetes.io/hostname";
     HostNameKey := "hostname";
     NDMDiskTypeKey := "ndm.io/disk-type";
     NDMManagedKey := "ndm.io/managed";
     TrueString := "true";
     NDMActive := "Active";
     NDMDiskKind := "Disk";
     NDMVersion := "openebs.io/v1alpha1";
     UDEV_FS_NONE := "none" |}.

(** ** Example inputs *)

(** A record whose type is the sentinel, with a mount point left over. *)
Definition fs_absent : FSInfo.t :=
  {| FSInfo.FileSystem := UDEV_FS_NONE (Constants := spec_constants);
     FSInfo.MountPoint := "/mnt/data" |}.

(** A record that was observed with an empty type and no mount point. *)
Definition fs_unnamed : FSInfo.t :=
  {| FSInfo.FileSystem := ""; FSInfo.MountPoint := "" |}.

Definition fs_ext4 : FSInfo.t :=
  {| FSInfo.FileSystem := "ext4"; FSInfo.MountPoint := "/mnt/data" |}.

(** The disk of the spec's first scenario: /dev/sdb, 10^12 bytes, sectors
    512/4096, model X, two by-id links, no by-path link, no filesystem;
    its temperature block holds 42 degrees but is not valid. *)
Definition sdb : DiskInfo.t :=
  {| DiskInfo.ProbeIdentifiers :=
       {| ProbeIdentifier.Uuid := "disk-0001";
          ProbeIdentifier.UdevIdentifier := "/sys/block/sdb";
          ProbeIdentifier.SmartIdentifier := "/dev/sdb";
          ProbeIdentifier.SeachestIdentifier := "/dev/sdb";
          ProbeIdentifier.MountIdentifier := "/dev/sdb" |};
     DiskInfo.NodeAttributes := Go.mk_map (<["hostname" := "node-1"]> ∅);
     DiskInfo.Uuid := "disk-0001";
     DiskInfo.Capacity := 1000000000000;
     DiskInfo.Model := "X";
     DiskInfo.Serial := "S1";
     DiskInfo.Vendor := "V";
     DiskInfo.Path := "/dev/sdb";
     DiskInfo.ByIdDevLinks := Go.mk_slice ["a"; "b"];
     DiskInfo.ByPathDevLinks := Go.nil_slice;
     DiskInfo.FirmwareRevision := "1.0";
     DiskInfo.LogicalSectorSize := 512;
     DiskInfo.PhysicalSectorSize := 4096;
     DiskInfo.RotationRate := 7200;
     DiskInfo.Compliance := "SPC-4";
     DiskInfo.DiskType := "disk";
     DiskInfo.DriveType := "HDD";
     DiskInfo.FileSystemInformation := fs_absent;
     DiskInfo.PartitionData :=
       Go.mk_slice
         [ {| PartitionInfo.PartitionType := "83";
              PartitionInfo.FileSystemInformation := fs_ext4 |};
           {| PartitionInfo.PartitionType := "8e";
              PartitionInfo.FileSystemInformation := fs_absent |} ];
     DiskInfo.TotalBytesRead := 10;
     DiskInfo.TotalBytesWritten := 20;
     DiskInfo.DeviceUtilizationRate := 0%float;
     DiskInfo.PercentEnduranceUsed := 0%float;
     DiskInfo.TemperatureInfo :=
       {| TemperatureInfo.TemperatureDataValid := false;
          TemperatureInfo.CurrentTemperature := 42;
          TemperatureInfo.HighestValid := false;
          TemperatureInfo.HighestTemperature := 55;
          TemperatureInfo.LowestValid := false;
          TemperatureInfo.LowestTemperature := 18 |} |}.

(** The same disk with a valid temperature block whose highest and lowest
    readings are both flagged invalid. *)
Definition sdb_warm : DiskInfo.t :=
  DiskInfo.set_TemperatureInfo
    {| TemperatureInfo.TemperatureDataValid := true;
       TemperatureInfo.CurrentTemperature := 42;
       TemperatureInfo.HighestValid := false;
       TemperatureInfo.HighestTemperature := 55;
       TemperatureInfo.LowestValid := false;
       TemperatureInfo.LowestTemperature := 18 |}
    sdb.

(** [sdb] as a later scan of the same disk could leave it: other probe
    identifiers, a further node attribute, no partition record, an empty
    by-path list that is not nil, another mount point left under the
    sentinel type, per-reading flags set and other readings in the
    temperature block, which is still not valid. *)
Definition sdb_rescanned : DiskInfo.t :=
  {| DiskInfo.ProbeIdentifiers := ProbeIdentifier.zero;
     DiskInfo.NodeAttributes :=
       Go.mk_map (<["zone" := "z1"]> (<["hostname" := "node-1"]> ∅));
     DiskInfo.Uuid := "disk-0001";
     DiskInfo.Capacity := 1000000000000;
     DiskInfo.Model := "X";
     DiskInfo.Serial := "S1";
     DiskInfo.Vendor := "V";
     DiskInfo.Path := "/dev/sdb";
     DiskInfo.ByIdDevLinks := Go.mk_slice ["a"; "b"];
     DiskInfo.ByPathDevLinks := Go.mk_slice [];
     DiskInfo.FirmwareRevision := "1.0";
     DiskInfo.LogicalSectorSize := 512;
     DiskInfo.PhysicalSectorSize := 4096;
     DiskInfo.RotationRate := 7200;
     DiskInfo.Compliance := "SPC-4";
     DiskInfo.DiskType := "disk";
     DiskInfo.DriveType := "HDD";
     DiskInfo.FileSystemInformation :=
       {| FSInfo.FileSystem := UDEV_FS_NONE (Constants := spec_constants);
          FSInfo.MountPoint := "/mnt/old" |};
     DiskInfo.PartitionData := Go.nil_slice;
     DiskInfo.TotalBytesRead := 10;
     DiskInfo.TotalBytesWritten := 20;
     DiskInfo.DeviceUtilizationRate := 0%float;
     DiskInfo.PercentEnduranceUsed := 0%float;
     DiskInfo.TemperatureInfo :=
       {| TemperatureInfo.TemperatureDataValid := false;
          TemperatureInfo.CurrentTemperature := 40;
          TemperatureInfo.HighestValid := true;
          TemperatureInfo.HighestTemperature := 60;
          TemperatureInfo.LowestValid := true;
          TemperatureInfo.LowestTemperature := 10 |} |}.

(** A disk right after the udev probe has given it a uuid in its probe
    identifiers, and before that uuid is copied to [Uuid]. *)
Definition sdb_discovered : DiskInfo.t :=
  DiskInfo.set_ProbeIdentifiers
    {| ProbeIdentifier.Uuid := "disk-0001";
       ProbeIdentifier.UdevIdentifier := "/sys/block/sdb";
       ProbeIdentifier.SmartIdentifier := "";
       ProbeIdentifier.SeachestIdentifier := "";
       ProbeIdentifier.MountIdentifier := "" |}
    (NewDiskInfo (consts := spec_constants)).

End controller.

Import controller.
Local Open Scope go_scope.

(** * Running methods *)

Section Methods.

Lemma reads_ret {A : Type} (a : A) : reads (ret a).
Proof. intros di. exists a. reflexivity. Qed.

Lemma reads_load {A : Type} (field : DiskInfo.t -> A) : reads (load field).
Proof. intros di. exists (field di). reflexivity. Qed.

Lemma reads_bind {A B : Type} (m : M A) (k : A -> M B) :
  reads m -> (forall a, reads (k a)) -> reads (x <- m ;; k x).
Proof.
  intros Hm Hk di. unfold bind.
  destruct (Hm di) as [a ->]. apply Hk.
Qed.

Lemma reads_if {A : Type} (b : bool) (m1 m2 : M A) :
  reads m1 -> reads m2 -> reads (if b then m1 else m2).
Proof. destruct b; trivial. Qed.

Lemma reads_try_assign (m : gmap string string) (k v : string) :
  reads (try (Go.assign (Go.mk_map m) k v)).
Proof. intros di. eexists. reflexivity. Qed.

(** Sequencing after a computation whose outcome is known. *)
Lemma bind_Returns {A B : Type} (m : M A) (k : A -> M B) di a di' :
  m di = Returns a di' -> (x <- m ;; k x) di = k a di'.
Proof. intros H. unfold bind. rewrite H. reflexivity. Qed.

Lemma Returns_inj {A : Type} (a b : A) (d e : DiskInfo.t) :
  Returns a d = Returns b e -> a = b /\ d = e.
Proof. intros H. inversion H. split; reflexivity. Qed.

End Methods.

Ltac prove_reads :=
  repeat first
    [ apply reads_ret | apply reads_load | apply reads_try_assign
    | apply reads_if | apply reads_bind; [ | intros ? ] ].

(** * The filesystem sub-mapper *)

Section FileSystem.
Context {consts : Constants}.

Lemma getFileSystemInfo_sentinel (fs : FSInfo.t) :
  FSInfo.FileSystem fs = UDEV_FS_NONE ->
  getFileSystemInfo fs = apis.FileSystemInfo.zero.
Proof.
  intros H. unfold getFileSystemInfo. rewrite H, String.eqb_refl.
  reflexivity.
Qed.

Lemma getFileSystemInfo_other (fs : FSInfo.t) :
  FSInfo.FileSystem fs <> UDEV_FS_NONE ->
  getFileSystemInfo fs =
    {| apis.FileSystemInfo.Type_ := FSInfo.FileSystem fs;
       apis.FileSystemInfo.Mountpoint := FSInfo.MountPoint fs |}.
Proof.
  intros H. unfold getFileSystemInfo.
  apply String.eqb_neq in H. rewrite H. reflexivity.
Qed.

(** Whatever non-empty string the sentinel is, a record of that type and a
    record observed with an empty type and no mount point are exported to
    one and the same value. *)
Lemma getFileSystemInfo_collision (mountPoint : string) :
  UDEV_FS_NONE <> "" ->
  getFileSystemInfo
    {| FSInfo.FileSystem := UDEV_FS_NONE; FSInfo.MountPoint := mountPoint |} =
  getFileSystemInfo {| FSInfo.FileSystem := ""; FSInfo.MountPoint := "" |}.
Proof.
  intros Hne.
  rewrite getFileSystemInfo_sentinel by reflexivity.
  rewrite getFileSystemInfo_other by (simpl; congruence).
  reflexivity.
Qed.

(** C1, as the code has it: a record whose type is the sentinel is exported
    as the zero value of [FileSystemInfo], that is with type and mount
    point both the empty string, and the encoder then writes neither key;
    a record of any other type has its type and mount point copied
    verbatim. *)
Theorem getFileSystemInfo_spec (fs : FSInfo.t) :
  (FSInfo.FileSystem fs = UDEV_FS_NONE ->
     apis.FileSystemInfo.Type_ (getFileSystemInfo fs) = "" /\
     apis.FileSystemInfo.Mountpoint (getFileSystemInfo fs) = "" /\
     apis.FileSystemInfo.json_fields (getFileSystemInfo fs) = []) /\
  (FSInfo.FileSystem fs <> UDEV_FS_NONE ->
     apis.FileSystemInfo.Type_ (getFileSystemInfo fs) = FSInfo.FileSystem fs /\
     apis.FileSystemInfo.Mountpoint (getFileSystemInfo fs) = FSInfo.MountPoint fs).
Proof.
  split; intros H.
  - rewrite (getFileSystemInfo_sentinel fs H). repeat split.
  - rewrite (getFileSystemInfo_other fs H). split; reflexivity.
Qed.

End FileSystem.

(** The zero value stands for no filesystem and for a filesystem observed
    with an empty name alike. *)
Lemma getFileSystemInfo_spec_witness :
  (apis.FileSystemInfo.Type_ (getFileSystemInfo (consts := spec_constants) fs_absent) = "" /\
   apis.FileSystemInfo.Mountpoint (getFileSystemInfo (consts := spec_constants) fs_absent) = "" /\
   apis.FileSystemInfo.json_fields (getFileSystemInfo (consts := spec_constants) fs_absent) = []) /\
  (apis.FileSystemInfo.Type_ (getFileSystemInfo (consts := spec_constants) fs_ext4) = "ext4" /\
   apis.FileSystemInfo.Mountpoint (getFileSystemInfo (consts := spec_constants) fs_ext4) = "/mnt/data").
Proof.
  split.
  - apply (proj1 (getFileSystemInfo_spec (consts := spec_constants) fs_absent)).
    reflexivity.
  - apply (proj2 (getFileSystemInfo_spec (consts := spec_constants) fs_ext4)).
    vm_compute. discriminate.
Defined.

(** C1 as stated fails: the export of the sentinel record [fs_absent]
    carries its type and mount point as empty strings, and it is the very
    value exported for [fs_unnamed], whose type is not the sentinel but the
    empty name; no consumer of the export can tell the two apart, neither
    from the struct nor from the keys the encoder writes. *)
Lemma getFileSystemInfo_absent_is_unnamed :
  FSInfo.FileSystem fs_absent = UDEV_FS_NONE (Constants := spec_constants) /\
  FSInfo.FileSystem fs_unnamed <> UDEV_FS_NONE (Constants := spec_constants) /\
  apis.FileSystemInfo.Type_ (getFileSystemInfo (consts := spec_constants) fs_absent) = "" /\
  apis.FileSystemInfo.Mountpoint (getFileSystemInfo (consts := spec_constants) fs_absent) = "" /\
  getFileSystemInfo (consts := spec_constants) fs_absent =
    getFileSystemInfo (consts := spec_constants) fs_unnamed /\
  apis.FileSystemInfo.json_fields (getFileSystemInfo (consts := spec_constants) fs_absent) =
    apis.FileSystemInfo.json_fields (getFileSystemInfo (consts := spec_constants) fs_unnamed).
Proof.
  split; [reflexivity|].
  split; [vm_compute; discriminate|].
  repeat split.
Qed.

(** * The stats block *)

Section Stats.
Context {consts : Constants}.

Lemma getStats_reads : reads getStats.
Proof. unfold getStats. prove_reads. Qed.

Lemma getStats_invalid (di : DiskInfo.t) :
  TemperatureInfo.TemperatureDataValid (DiskInfo.TemperatureInfo di) = false ->
  exists st, getStats di = Returns st di /\
    apis.DiskStat.TempInfo st = apis.Temperature.zero.
Proof.
  intros Hv. unfold getStats, bind, load. rewrite Hv. simpl.
  eexists. split; reflexivity.
Qed.

Lemma getStats_valid (di : DiskInfo.t) :
  TemperatureInfo.TemperatureDataValid (DiskInfo.TemperatureInfo di) = true ->
  exists st, getStats di = Returns st di /\
    apis.DiskStat.TempInfo st =
      {| apis.Temperature.CurrentTemperature :=
           TemperatureInfo.CurrentTemperature (DiskInfo.TemperatureInfo di);
         apis.Temperature.HighestTemperature :=
           TemperatureInfo.HighestTemperature (DiskInfo.TemperatureInfo di);
         apis.Temperature.LowestTemperature :=
           TemperatureInfo.LowestTemperature (DiskInfo.TemperatureInfo di) |}.
Proof.
  intros Hv. unfold getStats, bind, load. rewrite Hv. simpl.
  eexists. split; reflexivity.
Qed.

Lemma getStats_counters (di : DiskInfo.t) :
  exists st, getStats di = Returns st di /\
    apis.DiskStat.TotalBytesRead st = DiskInfo.TotalBytesRead di /\
    apis.DiskStat.TotalBytesWritten st = DiskInfo.TotalBytesWritten di /\
    apis.DiskStat.DeviceUtilizationRate st = DiskInfo.DeviceUtilizationRate di /\
    apis.DiskStat.PercentEnduranceUsed st = DiskInfo.PercentEnduranceUsed di.
Proof.
  unfold getStats, bind, load.
  destruct (TemperatureInfo.TemperatureDataValid (DiskInfo.TemperatureInfo di));
    simpl; eexists; repeat split.
Qed.

End Stats.

(** * The projection as a sequence of getters *)

Section Projection.
Context {consts : Constants}.

(** [getTypeMeta] and [getStatus] do not touch the receiver at all. *)
Lemma getTypeMeta_Returns (di : DiskInfo.t) :
  getTypeMeta di =
    Returns {| metav1.TypeMeta.Kind := NDMDiskKind;
               metav1.TypeMeta.APIVersion := NDMVersion |} di.
Proof. reflexivity. Qed.

Lemma getStatus_Returns (di : DiskInfo.t) :
  getStatus di = Returns {| apis.DiskStatus.State := NDMActive |} di.
Proof. reflexivity. Qed.

Lemma getTypeMeta_reads : reads getTypeMeta.
Proof. unfold getTypeMeta. prove_reads. Qed.

Lemma getStatus_reads : reads getStatus.
Proof. unfold getStatus. prove_reads. Qed.

(** The three label assignments hit the map that [make] just returned, so
    none of them can panic. *)
Lemma getObjectMeta_Returns (di : DiskInfo.t) :
  getObjectMeta di =
    Returns
      {| metav1.ObjectMeta.Name := DiskInfo.Uuid di;
         metav1.ObjectMeta.Labels :=
           Go.mk_map
             (<[NDMManagedKey := TrueString]>
                (<[NDMDiskTypeKey := DiskInfo.DiskType di]>
                   (<[KubernetesHostNameLabel :=
                        Go.index (DiskInfo.NodeAttributes di) HostNameKey]> ∅))) |}
      di.
Proof. reflexivity. Qed.

Lemma getObjectMeta_reads : reads getObjectMeta.
Proof. intros di. rewrite getObjectMeta_Returns. eexists. reflexivity. Qed.

Lemma getDiskDetails_reads : reads getDiskDetails.
Proof. unfold getDiskDetails. prove_reads. Qed.

Lemma getDiskCapacity_reads : reads getDiskCapacity.
Proof. unfold getDiskCapacity. prove_reads. Qed.

Lemma getDiskLinks_reads : reads getDiskLinks.
Proof. unfold getDiskLinks. prove_reads. Qed.

Lemma getDiskSpec_reads : reads getDiskSpec.
Proof.
  unfold getDiskSpec, getPath.
  apply reads_bind; [apply reads_load | intros path].
  apply reads_bind; [apply getDiskCapacity_reads | intros capacity].
  apply reads_bind; [apply getDiskDetails_reads | intros details].
  apply reads_bind; [apply getDiskLinks_reads | intros devLinks].
  prove_reads.
Qed.

(** [ToDisk] returns the struct made of what its five getters return, each
    run against the same, unchanged receiver. *)
Lemma ToDisk_sequence (di : DiskInfo.t) :
  exists typeMeta objectMeta spec status stats,
    getTypeMeta di = Returns typeMeta di /\
    getObjectMeta di = Returns objectMeta di /\
    getDiskSpec di = Returns spec di /\
    getStatus di = Returns status di /\
    getStats di = Returns stats di /\
    ToDisk di =
      Returns
        {| apis.Disk.TypeMeta := typeMeta;
           apis.Disk.ObjectMeta := objectMeta;
           apis.Disk.Spec := spec;
           apis.Disk.Status := status;
           apis.Disk.Stats := stats |}
        di.
Proof.
  destruct (getTypeMeta_reads di) as [typeMeta Htm].
  destruct (getObjectMeta_reads di) as [objectMeta Hom].
  destruct (getDiskSpec_reads di) as [spec Hsp].
  destruct (getStatus_reads di) as [status Hst].
  destruct (getStats_reads di) as [stats Hss].
  exists typeMeta, objectMeta, spec, status, stats.
  repeat (split; [assumption|]).
  unfold ToDisk.
  rewrite (bind_Returns _ _ _ _ _ Htm), (bind_Returns _ _ _ _ _ Hom),
    (bind_Returns _ _ _ _ _ Hsp), (bind_Returns _ _ _ _ _ Hst),
    (bind_Returns _ _ _ _ _ Hss).
  reflexivity.
Qed.

Lemma ToDisk_reads : reads ToDisk.
Proof.
  intros di.
  destruct (ToDisk_sequence di) as (tm & om & sp & st & ss & _ & _ & _ & _ & _ & H).
  eexists. exact H.
Qed.

(** The stats block of the projection is what [getStats] returns. *)
Lemma ToDisk_Stats (di : DiskInfo.t) (dr : apis.Disk.t) (st : apis.DiskStat.t) :
  ToDisk di = Returns dr di -> getStats di = Returns st di ->
  apis.Disk.Stats dr = st.
Proof.
  intros Hdr Hst.
  destruct (ToDisk_sequence di) as (tm & om & sp & s & ss & _ & _ & _ & _ & Hss & H).
  rewrite H in Hdr. rewrite Hss in Hst.
  apply Returns_inj in Hdr as [<- _]. apply Returns_inj in Hst as [<- _].
  reflexivity.
Qed.

Lemma ToDisk_Spec (di : DiskInfo.t) (dr : apis.Disk.t) (sp : apis.DiskSpec.t) :
  ToDisk di = Returns dr di -> getDiskSpec di = Returns sp di ->
  apis.Disk.Spec dr = sp.
Proof.
  intros Hdr Hsp.
  destruct (ToDisk_sequence di) as (tm & om & s & st & ss & _ & _ & Hs & _ & _ & H).
  rewrite H in Hdr. rewrite Hs in Hsp.
  apply Returns_inj in Hdr as [<- _]. apply Returns_inj in Hsp as [<- _].
  reflexivity.
Qed.

Lemma ToDisk_ObjectMeta (di : DiskInfo.t) (dr : apis.Disk.t)
    (om : metav1.ObjectMeta.t) :
  ToDisk di = Returns dr di -> getObjectMeta di = Returns om di ->
  apis.Disk.ObjectMeta dr = om.
Proof.
  intros Hdr Hom.
  destruct (ToDisk_sequence di) as (tm & o & s & st & ss & _ & Ho & _ & _ & _ & H).
  rewrite H in Hdr. rewrite Ho in Hom.
  apply Returns_inj in Hdr as [<- _]. apply Returns_inj in Hom as [<- _].
  reflexivity.
Qed.

Lemma ToDisk_Status (di : DiskInfo.t) (dr : apis.Disk.t)
    (status : apis.DiskStatus.t) :
  ToDisk di = Returns dr di -> getStatus di = Returns status di ->
  apis.Disk.Status dr = status.
Proof.
  intros Hdr Hst.
  destruct (ToDisk_sequence di) as (tm & o & s & st & ss & _ & _ & _ & Hs & _ & H).
  rewrite H in Hdr. rewrite Hs in Hst.
  apply Returns_inj in Hdr as [<- _]. apply Returns_inj in Hst as [<- _].
  reflexivity.
Qed.

(** The temperature sub-block of the projection, by the validity flag. *)
Lemma ToDisk_TempInfo_invalid (di : DiskInfo.t) (dr : apis.Disk.t) :
  ToDisk di = Returns dr di ->
  TemperatureInfo.TemperatureDataValid (DiskInfo.TemperatureInfo di) = false ->
  apis.DiskStat.TempInfo (apis.Disk.Stats dr) = apis.Temperature.zero.
Proof.
  intros Hdr Hv.
  destruct (getStats_invalid di Hv) as (st & Hst & Hzero).
  rewrite (ToDisk_Stats di dr st Hdr Hst). exact Hzero.
Qed.

Lemma ToDisk_TempInfo_valid (di : DiskInfo.t) (dr : apis.Disk.t) :
  ToDisk di = Returns dr di ->
  TemperatureInfo.TemperatureDataValid (DiskInfo.TemperatureInfo di) = true ->
  apis.DiskStat.TempInfo (apis.Disk.Stats dr) =
    {| apis.Temperature.CurrentTemperature :=
         TemperatureInfo.CurrentTemperature (DiskInfo.TemperatureInfo di);
       apis.Temperature.HighestTemperature :=
         TemperatureInfo.HighestTemperature (DiskInfo.TemperatureInfo di);
       apis.Temperature.LowestTemperature :=
         TemperatureInfo.LowestTemperature (DiskInfo.TemperatureInfo di) |}.
Proof.
  intros Hdr Hv.
  destruct (getStats_valid di Hv) as (st & Hst & Hcopy).
  rewrite (ToDisk_Stats di dr st Hdr Hst). exact Hcopy.
Qed.

(** C2: when the temperature block is not valid, the temperature sub-block
    of the projected stats is all zero, whatever the aggregate holds in its
    current, highest and lowest readings; when it is valid, the three
    readings are the aggregate's. *)
Theorem ToDisk_temperature_gating (di : DiskInfo.t) :
  exists dr, ToDisk di = Returns dr di /\
    (TemperatureInfo.TemperatureDataValid (DiskInfo.TemperatureInfo di) = false ->
       apis.DiskStat.TempInfo (apis.Disk.Stats dr) = apis.Temperature.zero) /\
    (TemperatureInfo.TemperatureDataValid (DiskInfo.TemperatureInfo di) = true ->
       apis.DiskStat.TempInfo (apis.Disk.Stats dr) =
         {| apis.Temperature.CurrentTemperature :=
              TemperatureInfo.CurrentTemperature (DiskInfo.TemperatureInfo di);
            apis.Temperature.HighestTemperature :=
              TemperatureInfo.HighestTemperature (DiskInfo.TemperatureInfo di);
            apis.Temperature.LowestTemperature :=
              TemperatureInfo.LowestTemperature (DiskInfo.TemperatureInfo di) |}).
Proof.
  destruct (ToDisk_reads di) as [dr Hdr].
  exists dr. split; [exact Hdr|]. split; intros Hv.
  - apply (ToDisk_TempInfo_invalid di dr Hdr Hv).
  - apply (ToDisk_TempInfo_valid di dr Hdr Hv).
Qed.

End Projection.

(** The spec's scenario: the block of [sdb] is not valid and holds 42
    degrees; the export shows zeros. *)
Lemma ToDisk_temperature_gating_witness :
  TemperatureInfo.CurrentTemperature (DiskInfo.TemperatureInfo sdb) = 42 /\
  exists dr, ToDisk (consts := spec_constants) sdb = Returns dr sdb /\
    apis.DiskStat.TempInfo (apis.Disk.Stats dr) = apis.Temperature.zero.
Proof.
  split; [reflexivity|].
  destruct (ToDisk_temperature_gating (consts := spec_constants) sdb)
    as (dr & Hdr & Hinvalid & _).
  exists dr. split; [exact Hdr|]. apply Hinvalid. reflexivity.
Defined.

(** * The per-reading validity flags *)

Section TemperatureFlags.
Context {consts : Constants}.

(** No getter reads [HighestValid] or [LowestValid]: each returns the same
    value whatever the two flags are. *)
Lemma getStats_flags (hv lv : bool) (di : DiskInfo.t) (st : apis.DiskStat.t) :
  getStats di = Returns st di ->
  getStats (with_reading_flags hv lv di) =
    Returns st (with_reading_flags hv lv di).
Proof.
  unfold getStats, bind, load. simpl.
  destruct (TemperatureInfo.TemperatureDataValid (DiskInfo.TemperatureInfo di));
    simpl; intros H; apply Returns_inj in H as [<- _]; reflexivity.
Qed.

Lemma getDiskSpec_flags (hv lv : bool) (di : DiskInfo.t) (sp : apis.DiskSpec.t) :
  getDiskSpec di = Returns sp di ->
  getDiskSpec (with_reading_flags hv lv di) =
    Returns sp (with_reading_flags hv lv di).
Proof.
  destruct di as [pi na uuid cap model serial vendor path byId byPath fw lss
    pss rr comp dt drt fsi pd tbr tbw dur peu ti].
  destruct byId as [|[|i0 byId]], byPath as [|[|p0 byPath]];
    intros H; apply Returns_inj in H as [<- _]; reflexivity.
Qed.

Lemma ToDisk_flags (hv lv : bool) (di : DiskInfo.t) (dr : apis.Disk.t) :
  ToDisk di = Returns dr di ->
  ToDisk (with_reading_flags hv lv di) =
    Returns dr (with_reading_flags hv lv di).
Proof.
  intros Hdr.
  destruct (ToDisk_sequence di) as (tm & om & sp & st & ss & Htm & Hom & Hsp & Hst & Hss & H).
  rewrite H in Hdr. apply Returns_inj in Hdr as [<- _].
  rewrite getTypeMeta_Returns in Htm. apply Returns_inj in Htm as [<- _].
  rewrite getObjectMeta_Returns in Hom. apply Returns_inj in Hom as [<- _].
  rewrite getStatus_Returns in Hst. apply Returns_inj in Hst as [<- _].
  unfold ToDisk.
  rewrite (bind_Returns _ _ _ _ _ (getTypeMeta_Returns _)).
  rewrite (bind_Returns _ _ _ _ _ (getObjectMeta_Returns _)).
  rewrite (bind_Returns _ _ _ _ _ (getDiskSpec_flags hv lv di sp Hsp)).
  rewrite (bind_Returns _ _ _ _ _ (getStatus_Returns _)).
  rewrite (bind_Returns _ _ _ _ _ (getStats_flags hv lv di ss Hss)).
  reflexivity.
Qed.

(** C10: when the temperature block is valid, the highest and the lowest
    reading are exported as the aggregate holds them, also when
    [HighestValid] or [LowestValid] is false; the projection never looks at
    these two flags, so it returns the same resource however they are
    set. *)
Theorem ToDisk_ignores_reading_flags (di : DiskInfo.t) :
  TemperatureInfo.TemperatureDataValid (DiskInfo.TemperatureInfo di) = true ->
  exists dr, ToDisk di = Returns dr di /\
    apis.Temperature.CurrentTemperature (apis.DiskStat.TempInfo (apis.Disk.Stats dr)) =
      TemperatureInfo.CurrentTemperature (DiskInfo.TemperatureInfo di) /\
    apis.Temperature.HighestTemperature (apis.DiskStat.TempInfo (apis.Disk.Stats dr)) =
      TemperatureInfo.HighestTemperature (DiskInfo.TemperatureInfo di) /\
    apis.Temperature.LowestTemperature (apis.DiskStat.TempInfo (apis.Disk.Stats dr)) =
      TemperatureInfo.LowestTemperature (DiskInfo.TemperatureInfo di) /\
    forall highestValid lowestValid,
      ToDisk (with_reading_flags highestValid lowestValid di) =
        Returns dr (with_reading_flags highestValid lowestValid di).
Proof.
  intros Hv.
  destruct (ToDisk_reads di) as [dr Hdr].
  exists dr. split; [exact Hdr|].
  rewrite (ToDisk_TempInfo_valid di dr Hdr Hv). simpl.
  repeat (split; [reflexivity|]).
  intros hv lv. apply ToDisk_flags. exact Hdr.
Qed.

End TemperatureFlags.

(** [sdb_warm] has a valid block with both per-reading flags false; 55 and
    18 degrees are exported all the same. *)
Lemma ToDisk_ignores_reading_flags_witness :
  TemperatureInfo.HighestValid (DiskInfo.TemperatureInfo sdb_warm) = false /\
  TemperatureInfo.LowestValid (DiskInfo.TemperatureInfo sdb_warm) = false /\
  exists dr, ToDisk (consts := spec_constants) sdb_warm = Returns dr sdb_warm /\
    apis.Temperature.HighestTemperature (apis.DiskStat.TempInfo (apis.Disk.Stats dr)) = 55 /\
    apis.Temperature.LowestTemperature (apis.DiskStat.TempInfo (apis.Disk.Stats dr)) = 18.
Proof.
  split; [reflexivity|]. split; [reflexivity|].
  destruct (ToDisk_ignores_reading_flags (consts := spec_constants) sdb_warm eq_refl)
    as (dr & Hdr & _ & Hhigh & Hlow & _).
  exists dr. split; [exact Hdr|]. split; [exact Hhigh | exact Hlow].
Defined.

(** * The spec block *)

Section Spec.
Context {consts : Constants}.

Lemma getDiskDetails_Returns (di : DiskInfo.t) :
  getDiskDetails di =
    Returns
      {| apis.DiskDetails.Model := DiskInfo.Model di;
         apis.DiskDetails.Serial := DiskInfo.Serial di;
         apis.DiskDetails.Vendor := DiskInfo.Vendor di;
         apis.DiskDetails.FirmwareRevision := DiskInfo.FirmwareRevision di;
         apis.DiskDetails.Compliance := DiskInfo.Compliance di;
         apis.DiskDetails.DriveType := DiskInfo.DriveType di;
         apis.DiskDetails.RotationRate := DiskInfo.RotationRate di |}
      di.
Proof. reflexivity. Qed.

Lemma getDiskCapacity_Returns (di : DiskInfo.t) :
  getDiskCapacity di =
    Returns
      {| apis.DiskCapacity.Storage := DiskInfo.Capacity di;
         apis.DiskCapacity.LogicalSectorSize := DiskInfo.LogicalSectorSize di;
         apis.DiskCapacity.PhysicalSectorSize := DiskInfo.PhysicalSectorSize di |}
      di.
Proof. reflexivity. Qed.

(** The two guarded appends of [getDiskLinks], one after the other. *)
Lemma getDiskLinks_Returns (di : DiskInfo.t) :
  getDiskLinks di =
    Returns
      (Go.mk_slice
         ((if Nat.eqb (Go.len (DiskInfo.ByIdDevLinks di)) 0 then []
           else [ {| apis.DiskDevLink.Kind := "by-id";
                     apis.DiskDevLink.Links := DiskInfo.ByIdDevLinks di |} ]) ++
          (if Nat.eqb (Go.len (DiskInfo.ByPathDevLinks di)) 0 then []
           else [ {| apis.DiskDevLink.Kind := "by-path";
                     apis.DiskDevLink.Links := DiskInfo.ByPathDevLinks di |} ]))%list)
      di.
Proof.
  unfold getDiskLinks, bind, load.
  destruct (Nat.eqb (Go.len (DiskInfo.ByIdDevLinks di)) 0); cbn [negb ret];
    destruct (Nat.eqb (Go.len (DiskInfo.ByPathDevLinks di)) 0); reflexivity.
Qed.

(** [getDiskSpec] returns the struct made of what its getters return and of
    the export of the aggregate's filesystem facts. *)
Lemma getDiskSpec_Returns (di : DiskInfo.t) :
  exists capacity details devLinks,
    getDiskCapacity di = Returns capacity di /\
    getDiskDetails di = Returns details di /\
    getDiskLinks di = Returns devLinks di /\
    getDiskSpec di =
      Returns
        {| apis.DiskSpec.Path := DiskInfo.Path di;
           apis.DiskSpec.Capacity := capacity;
           apis.DiskSpec.Details := details;
           apis.DiskSpec.DevLinks := devLinks;
           apis.DiskSpec.FileSystem :=
             getFileSystemInfo (DiskInfo.FileSystemInformation di) |}
        di.
Proof.
  do 3 eexists.
  split; [apply getDiskCapacity_Returns|].
  split; [apply getDiskDetails_Returns|].
  split; [apply getDiskLinks_Returns|].
  unfold getDiskSpec, getPath.
  rewrite (bind_Returns (load DiskInfo.Path) _ di _ di eq_refl).
  rewrite (bind_Returns _ _ _ _ _ (getDiskCapacity_Returns di)).
  rewrite (bind_Returns _ _ _ _ _ (getDiskDetails_Returns di)).
  rewrite (bind_Returns _ _ _ _ _ (getDiskLinks_Returns di)).
  reflexivity.
Qed.

(** What [ToDisk] puts in the spec block, field by field. *)
Lemma ToDisk_Spec_fields (di : DiskInfo.t) (dr : apis.Disk.t) :
  ToDisk di = Returns dr di ->
  apis.DiskSpec.Path (apis.Disk.Spec dr) = DiskInfo.Path di /\
  getDiskCapacity di = Returns (apis.DiskSpec.Capacity (apis.Disk.Spec dr)) di /\
  getDiskDetails di = Returns (apis.DiskSpec.Details (apis.Disk.Spec dr)) di /\
  getDiskLinks di = Returns (apis.DiskSpec.DevLinks (apis.Disk.Spec dr)) di /\
  apis.DiskSpec.FileSystem (apis.Disk.Spec dr) =
    getFileSystemInfo (DiskInfo.FileSystemInformation di).
Proof.
  intros Hdr.
  destruct (getDiskSpec_Returns di) as (cap & det & links & Hcap & Hdet & Hlinks & Hsp).
  rewrite (ToDisk_Spec di dr _ Hdr Hsp). simpl.
  repeat split; assumption.
Qed.

(** C3: the devlinks of the projection are at most two entries: the entry
    tagged by-id with the by-id list, there exactly when that list is not
    empty, followed by the entry tagged by-path with the by-path list,
    there exactly when that list is not empty; with both lists empty the
    result is the empty sequence, of length 0, and the projection still
    returns. *)
Theorem ToDisk_devlinks (di : DiskInfo.t) :
  exists dr links,
    ToDisk di = Returns dr di /\
    apis.DiskSpec.DevLinks (apis.Disk.Spec dr) = Go.mk_slice links /\
    links =
      ((if Nat.eqb (Go.len (DiskInfo.ByIdDevLinks di)) 0 then []
        else [ {| apis.DiskDevLink.Kind := "by-id";
                  apis.DiskDevLink.Links := DiskInfo.ByIdDevLinks di |} ]) ++
       (if Nat.eqb (Go.len (DiskInfo.ByPathDevLinks di)) 0 then []
        else [ {| apis.DiskDevLink.Kind := "by-path";
                  apis.DiskDevLink.Links := DiskInfo.ByPathDevLinks di |} ]))%list /\
    (length links <= 2)%nat /\
    ({| apis.DiskDevLink.Kind := "by-id";
        apis.DiskDevLink.Links := DiskInfo.ByIdDevLinks di |} ∈ links <->
       Go.len (DiskInfo.ByIdDevLinks di) <> 0%nat) /\
    ({| apis.DiskDevLink.Kind := "by-path";
        apis.DiskDevLink.Links := DiskInfo.ByPathDevLinks di |} ∈ links <->
       Go.len (DiskInfo.ByPathDevLinks di) <> 0%nat) /\
    (forall link, link ∈ links ->
       Go.len (apis.DiskDevLink.Links link) <> 0%nat) /\
    (Go.len (DiskInfo.ByIdDevLinks di) = 0%nat ->
     Go.len (DiskInfo.ByPathDevLinks di) = 0%nat ->
     links = [] /\ Go.len (apis.DiskSpec.DevLinks (apis.Disk.Spec dr)) = 0%nat).
Proof.
  destruct (ToDisk_reads di) as [dr Hdr].
  destruct (ToDisk_Spec_fields di dr Hdr) as (_ & _ & _ & Hlinks & _).
  rewrite getDiskLinks_Returns in Hlinks.
  apply Returns_inj in Hlinks as [Hlinks _].
  exists dr. eexists. split; [exact Hdr|].
  split; [symmetry; exact Hlinks|]. split; [reflexivity|].
  rewrite <- Hlinks. clear Hlinks Hdr dr.
  destruct (Nat.eqb_spec (Go.len (DiskInfo.ByIdDevLinks di)) 0) as [Hid|Hid];
    destruct (Nat.eqb_spec (Go.len (DiskInfo.ByPathDevLinks di)) 0) as [Hpath|Hpath];
    cbn [app length].
  - split; [lia|]. split; [|split; [|split]].
    + split; [intros H; inversion H | intros H; contradiction].
    + split; [intros H; inversion H | intros H; contradiction].
    + intros link H. inversion H.
    + intros _ _. split; reflexivity.
  - split; [lia|]. split; [|split; [|split]].
    + split; [|intros H; contradiction].
      intros H. apply list_elem_of_singleton in H. discriminate H.
    + split; [intros _; exact Hpath|].
      intros _. apply list_elem_of_singleton. reflexivity.
    + intros link H. apply list_elem_of_singleton in H. subst link. exact Hpath.
    + intros _ H. contradiction.
  - split; [lia|]. split; [|split; [|split]].
    + split; [intros _; exact Hid|].
      intros _. apply list_elem_of_singleton. reflexivity.
    + split; [|intros H; contradiction].
      intros H. apply list_elem_of_singleton in H. discriminate H.
    + intros link H. apply list_elem_of_singleton in H. subst link. exact Hid.
    + intros H. contradiction.
  - split; [lia|]. split; [|split; [|split]].
    + split; [intros _; exact Hid | intros _; apply list_elem_of_here].
    + split; [intros _; exact Hpath|].
      intros _. apply list_elem_of_further, list_elem_of_here.
    + intros link H. apply elem_of_cons in H as [->|H]; [exact Hid|].
      apply list_elem_of_singleton in H. subst link. exact Hpath.
    + intros H. contradiction.
Qed.

End Spec.

(** * Static facts, identity and status *)

Section Fidelity.
Context {consts : Constants}.

(** C6: every static fact of the aggregate (path; capacity, logical and
    physical sector size; model, serial, vendor, firmware revision,
    compliance, device subtype, rotation rate) is found unchanged in the
    matching field of the projected spec, whatever its value. *)
Theorem ToDisk_static_facts (di : DiskInfo.t) :
  exists dr, ToDisk di = Returns dr di /\
    apis.DiskSpec.Path (apis.Disk.Spec dr) = DiskInfo.Path di /\
    apis.DiskCapacity.Storage (apis.DiskSpec.Capacity (apis.Disk.Spec dr)) =
      DiskInfo.Capacity di /\
    apis.DiskCapacity.LogicalSectorSize (apis.DiskSpec.Capacity (apis.Disk.Spec dr)) =
      DiskInfo.LogicalSectorSize di /\
    apis.DiskCapacity.PhysicalSectorSize (apis.DiskSpec.Capacity (apis.Disk.Spec dr)) =
      DiskInfo.PhysicalSectorSize di /\
    apis.DiskDetails.Model (apis.DiskSpec.Details (apis.Disk.Spec dr)) =
      DiskInfo.Model di /\
    apis.DiskDetails.Serial (apis.DiskSpec.Details (apis.Disk.Spec dr)) =
      DiskInfo.Serial di /\
    apis.DiskDetails.Vendor (apis.DiskSpec.Details (apis.Disk.Spec dr)) =
      DiskInfo.Vendor di /\
    apis.DiskDetails.FirmwareRevision (apis.DiskSpec.Details (apis.Disk.Spec dr)) =
      DiskInfo.FirmwareRevision di /\
    apis.DiskDetails.Compliance (apis.DiskSpec.Details (apis.Disk.Spec dr)) =
      DiskInfo.Compliance di /\
    apis.DiskDetails.DriveType (apis.DiskSpec.Details (apis.Disk.Spec dr)) =
      DiskInfo.DriveType di /\
    apis.DiskDetails.RotationRate (apis.DiskSpec.Details (apis.Disk.Spec dr)) =
      DiskInfo.RotationRate di.
Proof.
  destruct (ToDisk_reads di) as [dr Hdr].
  destruct (ToDisk_Spec_fields di dr Hdr) as (Hpath & Hcap & Hdet & _ & _).
  rewrite getDiskCapacity_Returns in Hcap. apply Returns_inj in Hcap as [Hcap _].
  rewrite getDiskDetails_Returns in Hdet. apply Returns_inj in Hdet as [Hdet _].
  exists dr. split; [exact Hdr|]. split; [exact Hpath|].
  rewrite <- Hcap, <- Hdet. simpl. repeat split.
Qed.

(** C8: whatever the aggregate holds, the lifecycle state of the projection
    is the constant [NDMActive]; two aggregates, however different, get the
    same status block. *)
Theorem ToDisk_status_active (di di' : DiskInfo.t) :
  exists dr dr',
    ToDisk di = Returns dr di /\ ToDisk di' = Returns dr' di' /\
    apis.DiskStatus.State (apis.Disk.Status dr) = NDMActive /\
    apis.Disk.Status dr' = apis.Disk.Status dr.
Proof.
  destruct (ToDisk_reads di) as [dr Hdr].
  destruct (ToDisk_reads di') as [dr' Hdr'].
  exists dr, dr'. split; [exact Hdr|]. split; [exact Hdr'|].
  rewrite (ToDisk_Status di dr _ Hdr (getStatus_Returns di)).
  rewrite (ToDisk_Status di' dr' _ Hdr' (getStatus_Returns di')).
  split; reflexivity.
Qed.

(** C4: [ToDisk] returns and leaves the aggregate as it was, so a second
    call right after the first one runs against the same aggregate and
    returns the same resource. *)
Theorem ToDisk_idempotent (di : DiskInfo.t) :
  exists dr,
    ToDisk di = Returns dr di /\
    (first <- ToDisk ;; second <- ToDisk ;; ret (first, second)) di =
      Returns (dr, dr) di.
Proof.
  destruct (ToDisk_reads di) as [dr Hdr].
  exists dr. split; [exact Hdr|].
  rewrite (bind_Returns _ _ _ _ _ Hdr).
  rewrite (bind_Returns _ _ _ _ _ Hdr).
  reflexivity.
Qed.

End Fidelity.

(** * Identity metadata *)

Section ObjectMeta.
Context {consts : Constants}.

Lemma index_missing (m : Go.map) (k : string) :
  Go.contains m k = false -> Go.index m k = "".
Proof.
  destruct m as [|g]; [reflexivity|]. simpl.
  destruct (g !! k) as [v|]; [discriminate | reflexivity].
Qed.

(** C7, as the code has it: the projection is named after the aggregate's
    own field [Uuid], not after the uuid kept in its probe identifiers; its
    labels are exactly three: the host-name label with the node attribute stored
    under [HostNameKey], the disk-type label with the aggregate's
    [DiskType], and the managed label with [TrueString].  When the node
    attributes have no entry under [HostNameKey] (or are a [nil] map) the
    host-name label is the empty string, and the projection still
    returns.  The three label keys are constants declared outside
    disk.go and are taken to be pairwise different. *)
Theorem ToDisk_object_meta (di : DiskInfo.t) :
  KubernetesHostNameLabel <> NDMDiskTypeKey ->
  KubernetesHostNameLabel <> NDMManagedKey ->
  NDMDiskTypeKey <> NDMManagedKey ->
  exists dr labels,
    ToDisk di = Returns dr di /\
    metav1.ObjectMeta.Name (apis.Disk.ObjectMeta dr) = DiskInfo.Uuid di /\
    metav1.ObjectMeta.Labels (apis.Disk.ObjectMeta dr) = Go.mk_map labels /\
    labels !! KubernetesHostNameLabel =
      Some (Go.index (DiskInfo.NodeAttributes di) HostNameKey) /\
    labels !! NDMDiskTypeKey = Some (DiskInfo.DiskType di) /\
    labels !! NDMManagedKey = Some TrueString /\
    dom labels = {[ KubernetesHostNameLabel; NDMDiskTypeKey; NDMManagedKey ]} /\
    size labels = 3%nat /\
    (Go.contains (DiskInfo.NodeAttributes di) HostNameKey = false ->
       labels !! KubernetesHostNameLabel = Some "").
Proof.
  intros Hij Hik Hjk.
  destruct (ToDisk_reads di) as [dr Hdr].
  exists dr. eexists. split; [exact Hdr|].
  rewrite (ToDisk_ObjectMeta di dr _ Hdr (getObjectMeta_Returns di)).
  split; [reflexivity|]. split; [reflexivity|].
  assert (Hhost : forall v w x : string,
             <[NDMManagedKey := x]> (<[NDMDiskTypeKey := w]>
               (<[KubernetesHostNameLabel := v]> (∅ : gmap string string)))
             !! KubernetesHostNameLabel = Some v).
  { intros v w x.
    rewrite lookup_insert_ne by congruence.
    rewrite lookup_insert_ne by congruence.
    apply lookup_insert_eq. }
  split; [apply Hhost|].
  split; [rewrite lookup_insert_ne by congruence; apply lookup_insert_eq|].
  split; [apply lookup_insert_eq|].
  split.
  { rewrite !dom_insert_L, dom_empty_L.
    apply set_eq. intros k. rewrite !elem_of_union, !elem_of_singleton.
    rewrite elem_of_empty. tauto. }
  split.
  - rewrite map_size_insert_None.
    + rewrite map_size_insert_None.
      * rewrite map_size_insert_None; [|apply lookup_empty].
        rewrite map_size_empty. reflexivity.
      * rewrite lookup_insert_ne by congruence. apply lookup_empty.
    + rewrite lookup_insert_ne by congruence.
      rewrite lookup_insert_ne by congruence. apply lookup_empty.
  - intros Hmiss. rewrite Hhost, (index_missing _ _ Hmiss). reflexivity.
Qed.

(** The name is read from [di.Uuid]; the copy of the uuid that the udev
    probe keeps in [di.ProbeIdentifiers] plays no part. *)
Lemma getObjectMeta_ProbeIdentifiers (pi : ProbeIdentifier.t) (di : DiskInfo.t) :
  exists om,
    getObjectMeta di = Returns om di /\
    getObjectMeta (DiskInfo.set_ProbeIdentifiers pi di) =
      Returns om (DiskInfo.set_ProbeIdentifiers pi di).
Proof.
  eexists. split; [apply getObjectMeta_Returns|].
  rewrite getObjectMeta_Returns. reflexivity.
Qed.

End ObjectMeta.

(** C7 as stated fails when the stable id is the one of the identifier
    set: the probe identifiers of [sdb_discovered] hold the uuid disk-0001,
    and its projection is named by the empty string that [Uuid] still
    holds. *)
Lemma ToDisk_name_is_not_identifier_uuid :
  ProbeIdentifier.Uuid (DiskInfo.ProbeIdentifiers sdb_discovered) = "disk-0001" /\
  DiskInfo.Uuid sdb_discovered = "" /\
  exists dr,
    ToDisk (consts := spec_constants) sdb_discovered = Returns dr sdb_discovered /\
    metav1.ObjectMeta.Name (apis.Disk.ObjectMeta dr) = "" /\
    metav1.ObjectMeta.Name (apis.Disk.ObjectMeta dr) <>
      ProbeIdentifier.Uuid (DiskInfo.ProbeIdentifiers sdb_discovered).
Proof.
  split; [reflexivity|]. split; [reflexivity|].
  destruct (ToDisk_reads (consts := spec_constants) sdb_discovered) as [dr Hdr].
  exists dr. split; [exact Hdr|].
  rewrite (ToDisk_ObjectMeta sdb_discovered dr _ Hdr
             (getObjectMeta_Returns sdb_discovered)).
  split; [reflexivity|]. simpl. discriminate.
Qed.

(** On [sdb] the node is known; on a disk that was just created it is not,
    and the host-name label is empty. *)
Lemma ToDisk_object_meta_witness :
  (exists dr labels,
     ToDisk (consts := spec_constants) sdb = Returns dr sdb /\
     metav1.ObjectMeta.Name (apis.Disk.ObjectMeta dr) = "disk-0001" /\
     metav1.ObjectMeta.Labels (apis.Disk.ObjectMeta dr) = Go.mk_map labels /\
     labels !! "kubernetes.io/hostname" = Some "node-1" /\
     labels !! "ndm.io/disk-type" = Some "disk" /\
     labels !! "ndm.io/managed" = Some "true" /\
     size labels = 3%nat) /\
  (exists dr labels,
     ToDisk (consts := spec_constants) (NewDiskInfo (consts := spec_constants)) =
       Returns dr (NewDiskInfo (consts := spec_constants)) /\
     metav1.ObjectMeta.Labels (apis.Disk.ObjectMeta dr) = Go.mk_map labels /\
     labels !! "kubernetes.io/hostname" = Some "").
Proof.
  assert (H12 : KubernetesHostNameLabel (Constants := spec_constants) <>
                NDMDiskTypeKey (Constants := spec_constants))
    by (vm_compute; discriminate).
  assert (H13 : KubernetesHostNameLabel (Constants := spec_constants) <>
                NDMManagedKey (Constants := spec_constants))
    by (vm_compute; discriminate).
  assert (H23 : NDMDiskTypeKey (Constants := spec_constants) <>
                NDMManagedKey (Constants := spec_constants))
    by (vm_compute; discriminate).
  split.
  - destruct (ToDisk_object_meta (consts := spec_constants) sdb H12 H13 H23)
      as (dr & labels & Hdr & Hname & Hlabels & Hhost & Htype & Hmanaged & _ & Hsize & _).
    exists dr, labels. repeat split; assumption.
  - destruct (ToDisk_object_meta (consts := spec_constants)
                (NewDiskInfo (consts := spec_constants)) H12 H13 H23)
      as (dr & labels & Hdr & _ & Hlabels & _ & _ & _ & _ & _ & Hmissing).
    exists dr, labels. split; [exact Hdr|]. split; [exact Hlabels|].
    apply Hmissing. reflexivity.
Defined.

(** * Partitions *)

Section Partitions.
Context {consts : Constants}.

(** The loop of [ToPartition] appends one export per record, in the order
    of the records, to what it started from. *)
Lemma fold_ToPartition_step (records : list PartitionInfo.t)
    (done : list apis.Partition.t) :
  fold_left ToPartition_step records (Go.mk_slice done) =
    Go.mk_slice
      (done ++
       map (fun record =>
              {| apis.Partition.PartitionType :=
                   PartitionInfo.PartitionType record;
                 apis.Partition.FileSystem :=
                   getFileSystemInfo
                     (PartitionInfo.FileSystemInformation record) |})
         records)%list.
Proof.
  revert done. induction records as [|record records IH]; intros done.
  - simpl. rewrite app_nil_r. reflexivity.
  - simpl. unfold ToPartition_step at 2, Go.append. simpl.
    rewrite IH, <- app_assoc. reflexivity.
Qed.

(** C5: [ToPartition] returns a sequence with one entry per partition
    record, in the order of the records; the entry at each position has the
    record's partition type and the export of its filesystem facts; the
    aggregate, and with it the list of records, is left as it was; and
    without records (a nil or an empty list) the result is the empty
    sequence, not nil. *)
Theorem ToPartition_spec (di : DiskInfo.t) :
  exists partition,
    ToPartition di = Returns (Go.mk_slice partition) di /\
    length partition = Go.len (DiskInfo.PartitionData di) /\
    (forall (i : nat) (record : PartitionInfo.t),
       Go.elems (DiskInfo.PartitionData di) !! i = Some record ->
       partition !! i =
         Some {| apis.Partition.PartitionType :=
                   PartitionInfo.PartitionType record;
                 apis.Partition.FileSystem :=
                   getFileSystemInfo
                     (PartitionInfo.FileSystemInformation record) |}) /\
    (Go.len (DiskInfo.PartitionData di) = 0%nat -> partition = []).
Proof.
  eexists. split.
  - unfold ToPartition, bind, load, ret, Go.make_slice.
    rewrite fold_ToPartition_step. reflexivity.
  - cbn [app]. split; [apply length_map|]. split.
    + intros i record Hi. rewrite list_lookup_fmap, Hi. reflexivity.
    + unfold Go.len. intros Hlen.
      apply length_zero_iff_nil in Hlen. rewrite Hlen. reflexivity.
Qed.

End Partitions.

(** * Creation *)

Section Creation.
Context {consts : Constants}.

(** C9: [NewDiskInfo] yields an aggregate whose node attributes are a map
    that is there (made, not nil) and has no entry, and whose disk type is
    the default [NDMDefaultDiskType].  Nothing in it can fail, and the new
    aggregate can be written to and projected at once. *)
Theorem NewDiskInfo_spec :
  DiskInfo.NodeAttributes NewDiskInfo = Go.mk_map ∅ /\
  DiskInfo.NodeAttributes NewDiskInfo <> Go.nil_map /\
  Go.map_len (DiskInfo.NodeAttributes NewDiskInfo) = 0%nat /\
  (forall k v, Go.assign (DiskInfo.NodeAttributes NewDiskInfo) k v <> None) /\
  DiskInfo.DiskType NewDiskInfo = NDMDefaultDiskType /\
  exists dr, ToDisk NewDiskInfo = Returns dr NewDiskInfo.
Proof.
  unfold NewDiskInfo. cbn [DiskInfo.set_DiskType DiskInfo.set_NodeAttributes
    DiskInfo.NodeAttributes DiskInfo.DiskType].
  split; [reflexivity|].
  split; [discriminate|].
  split; [apply map_size_empty|].
  split; [intros k v; discriminate|].
  split; [reflexivity|].
  apply ToDisk_reads.
Qed.

End Creation.

(** * The spec's scenario, run *)

(** The disk [sdb] projects to a resource named after its uuid, with path
    /dev/sdb, capacity 10^12, one devlink entry (by-id, links a and b), no
    filesystem, and a zero temperature block. *)
Example ToDisk_sdb :
  ToDisk (consts := spec_constants) sdb =
    Returns
      {| apis.Disk.TypeMeta :=
           {| metav1.TypeMeta.Kind := "Disk";
              metav1.TypeMeta.APIVersion := "openebs.io/v1alpha1" |};
         apis.Disk.ObjectMeta :=
           {| metav1.ObjectMeta.Name := "disk-0001";
              metav1.ObjectMeta.Labels :=
                Go.mk_map
                  (<["ndm.io/managed" := "true"]>
                     (<["ndm.io/disk-type" := "disk"]>
                        (<["kubernetes.io/hostname" := "node-1"]> ∅))) |};
         apis.Disk.Spec :=
           {| apis.DiskSpec.Path := "/dev/sdb";
              apis.DiskSpec.Capacity :=
                {| apis.DiskCapacity.Storage := 1000000000000;
                   apis.DiskCapacity.LogicalSectorSize := 512;
                   apis.DiskCapacity.PhysicalSectorSize := 4096 |};
              apis.DiskSpec.Details :=
                {| apis.DiskDetails.Model := "X";
                   apis.DiskDetails.Serial := "S1";
                   apis.DiskDetails.Vendor := "V";
                   apis.DiskDetails.FirmwareRevision := "1.0";
                   apis.DiskDetails.Compliance := "SPC-4";
                   apis.DiskDetails.DriveType := "HDD";
                   apis.DiskDetails.RotationRate := 7200 |};
              apis.DiskSpec.DevLinks :=
                Go.mk_slice
                  [ {| apis.DiskDevLink.Kind := "by-id";
                       apis.DiskDevLink.Links := Go.mk_slice ["a"; "b"] |} ];
              apis.DiskSpec.FileSystem :=
                {| apis.FileSystemInfo.Type_ := "";
                   apis.FileSystemInfo.Mountpoint := "" |} |};
         apis.Disk.Status := {| apis.DiskStatus.State := "Active" |};
         apis.Disk.Stats :=
           {| apis.DiskStat.TotalBytesRead := 10;
              apis.DiskStat.TotalBytesWritten := 20;
              apis.DiskStat.DeviceUtilizationRate := 0%float;
              apis.DiskStat.PercentEnduranceUsed := 0%float;
              apis.DiskStat.TempInfo :=
                {| apis.Temperature.CurrentTemperature := 0;
                   apis.Temperature.HighestTemperature := 0;
                   apis.Temperature.LowestTemperature := 0 |} |} |}
      sdb.
Proof. vm_compute. reflexivity. Qed.

Example ToPartition_sdb :
  ToPartition (consts := spec_constants) sdb =
    Returns
      (Go.mk_slice
         [ {| apis.Partition.PartitionType := "83";
              apis.Partition.FileSystem :=
                {| apis.FileSystemInfo.Type_ := "ext4";
                   apis.FileSystemInfo.Mountpoint := "/mnt/data" |} |};
           {| apis.Partition.PartitionType := "8e";
              apis.Partition.FileSystem := apis.FileSystemInfo.zero |} ])
      sdb.
Proof. vm_compute. reflexivity. Qed.

(** A disk without partition records has the empty, non-nil sequence. *)
Example ToPartition_NewDiskInfo :
  ToPartition (consts := spec_constants) (NewDiskInfo (consts := spec_constants)) =
    Returns Go.make_slice (NewDiskInfo (consts := spec_constants)).
Proof. reflexivity. Qed.

(** * Further properties of the projection *)

Section Counters.
Context {consts : Constants}.

(** X1: the four runtime counters of the aggregate are exported unchanged
    in the stats block, whether or not the temperature block is valid. *)
Theorem ToDisk_counters (di : DiskInfo.t) :
  exists dr, ToDisk di = Returns dr di /\
    apis.DiskStat.TotalBytesRead (apis.Disk.Stats dr) =
      DiskInfo.TotalBytesRead di /\
    apis.DiskStat.TotalBytesWritten (apis.Disk.Stats dr) =
      DiskInfo.TotalBytesWritten di /\
    apis.DiskStat.DeviceUtilizationRate (apis.Disk.Stats dr) =
      DiskInfo.DeviceUtilizationRate di /\
    apis.DiskStat.PercentEnduranceUsed (apis.Disk.Stats dr) =
      DiskInfo.PercentEnduranceUsed di.
Proof.
  destruct (ToDisk_reads di) as [dr Hdr].
  destruct (getStats_counters di) as (st & Hst & Hcounters).
  exists dr. split; [exact Hdr|].
  rewrite (ToDisk_Stats di dr st Hdr Hst). exact Hcounters.
Qed.

End Counters.

Section FileSystemExport.
Context {consts : Constants}.

(** X2: as long as the type is not the sentinel, the export keeps the
    filesystem facts apart: two different records are exported to two
    different values. *)
Theorem getFileSystemInfo_injective (fs1 fs2 : FSInfo.t) :
  FSInfo.FileSystem fs1 <> UDEV_FS_NONE ->
  FSInfo.FileSystem fs2 <> UDEV_FS_NONE ->
  fs1 <> fs2 ->
  getFileSystemInfo fs1 <> getFileSystemInfo fs2.
Proof.
  intros H1 H2 Hne Heq. apply Hne.
  rewrite (getFileSystemInfo_other fs1 H1) in Heq.
  rewrite (getFileSystemInfo_other fs2 H2) in Heq.
  destruct fs1 as [type1 mount1], fs2 as [type2 mount2].
  simpl in Heq. inversion Heq. reflexivity.
Qed.

Lemma elem_of_omitempty (key key' value : string) :
  key' ∈ apis.FileSystemInfo.omitempty key value <->
  key' = key /\ value <> "".
Proof.
  unfold apis.FileSystemInfo.omitempty.
  destruct (decide (value = "")) as [He|He].
  - split; [intros H; inversion H | intros (_ & H); contradiction].
  - rewrite list_elem_of_singleton. split.
    + intros ->. split; [reflexivity | exact He].
    + intros (-> & _). reflexivity.
Qed.

(** X3: the keys the encoder writes for an exported filesystem.  The key
    fsType is written exactly when the record's type is neither the sentinel
    nor empty; the key mountPoint is written exactly when the type is not
    the sentinel and the mount point is not empty; no other key is
    written.  So a mount point kept under the sentinel type leaves no key
    behind, and a filesystem that is not mounted has the key fsType
    alone. *)
Theorem getFileSystemInfo_json_fields (fs : FSInfo.t) :
  ("fsType" ∈ apis.FileSystemInfo.json_fields (getFileSystemInfo fs) <->
     FSInfo.FileSystem fs <> "" /\ FSInfo.FileSystem fs <> UDEV_FS_NONE) /\
  ("mountPoint" ∈ apis.FileSystemInfo.json_fields (getFileSystemInfo fs) <->
     FSInfo.MountPoint fs <> "" /\ FSInfo.FileSystem fs <> UDEV_FS_NONE) /\
  (forall key, key ∈ apis.FileSystemInfo.json_fields (getFileSystemInfo fs) ->
     key = "fsType" \/ key = "mountPoint").
Proof.
  unfold apis.FileSystemInfo.json_fields.
  split; [|split].
  - rewrite elem_of_app, !elem_of_omitempty.
    destruct (decide (FSInfo.FileSystem fs = UDEV_FS_NONE)) as [Hs|Hs].
    + rewrite (getFileSystemInfo_sentinel fs Hs). simpl. split.
      * intros [(_ & H)|(H & _)]; [contradiction | discriminate H].
      * intros (_ & H). contradiction.
    + rewrite (getFileSystemInfo_other fs Hs). simpl. split.
      * intros [(_ & H)|(H & _)]; [|discriminate H]. split; assumption.
      * intros (H & _). left. split; [reflexivity | exact H].
  - rewrite elem_of_app, !elem_of_omitempty.
    destruct (decide (FSInfo.FileSystem fs = UDEV_FS_NONE)) as [Hs|Hs].
    + rewrite (getFileSystemInfo_sentinel fs Hs). simpl. split.
      * intros [(H & _)|(_ & H)]; [discriminate H | contradiction].
      * intros (_ & H). contradiction.
    + rewrite (getFileSystemInfo_other fs Hs). simpl. split.
      * intros [(H & _)|(_ & H)]; [discriminate H|]. split; assumption.
      * intros (H & _). right. split; [reflexivity | exact H].
  - intros key. rewrite elem_of_app, !elem_of_omitempty.
    intros [(-> & _)|(-> & _)]; [left | right]; reflexivity.
Qed.

End FileSystemExport.

(** [fs_ext4] and [fs_unnamed] are two records of non-sentinel type. *)
Lemma getFileSystemInfo_injective_witness :
  getFileSystemInfo (consts := spec_constants) fs_ext4 <>
  getFileSystemInfo (consts := spec_constants) fs_unnamed.
Proof.
  apply (getFileSystemInfo_injective (consts := spec_constants) fs_ext4 fs_unnamed).
  - vm_compute. discriminate.
  - vm_compute. discriminate.
  - discriminate.
Defined.

Section PartitionList.
Context {consts : Constants}.

Lemma ToPartition_Returns (di : DiskInfo.t) :
  ToPartition di =
    Returns
      (Go.mk_slice
         (map (fun record =>
                 {| apis.Partition.PartitionType :=
                      PartitionInfo.PartitionType record;
                    apis.Partition.FileSystem :=
                      getFileSystemInfo
                        (PartitionInfo.FileSystemInformation record) |})
            (Go.elems (DiskInfo.PartitionData di))))
      di.
Proof.
  unfold ToPartition, bind, load, ret, Go.make_slice.
  rewrite fold_ToPartition_step. reflexivity.
Qed.

(** X4: [ToPartition] looks at nothing but the partition records: two
    aggregates whose record lists have the same elements, one after the
    other, get the same partitions, however they differ elsewhere and
    whether an empty list is nil or not. *)
Theorem ToPartition_elems (di di' : DiskInfo.t) :
  Go.elems (DiskInfo.PartitionData di) = Go.elems (DiskInfo.PartitionData di') ->
  exists partition,
    ToPartition di = Returns partition di /\
    ToPartition di' = Returns partition di'.
Proof.
  intros Helems. eexists. split; [apply ToPartition_Returns|].
  rewrite ToPartition_Returns, Helems. reflexivity.
Qed.

(** X5: the partitions of a record list followed by another one are the
    partitions of the first followed by the partitions of the second. *)
Theorem ToPartition_app (di : DiskInfo.t) (rs1 rs2 : list PartitionInfo.t) :
  exists partition1 partition2,
    ToPartition (DiskInfo.set_PartitionData (Go.mk_slice rs1) di) =
      Returns (Go.mk_slice partition1)
        (DiskInfo.set_PartitionData (Go.mk_slice rs1) di) /\
    ToPartition (DiskInfo.set_PartitionData (Go.mk_slice rs2) di) =
      Returns (Go.mk_slice partition2)
        (DiskInfo.set_PartitionData (Go.mk_slice rs2) di) /\
    ToPartition (DiskInfo.set_PartitionData (Go.mk_slice (rs1 ++ rs2)%list) di) =
      Returns (Go.mk_slice (partition1 ++ partition2)%list)
        (DiskInfo.set_PartitionData (Go.mk_slice (rs1 ++ rs2)%list) di).
Proof.
  do 2 eexists.
  split; [apply ToPartition_Returns|].
  split; [apply ToPartition_Returns|].
  rewrite ToPartition_Returns. cbn [DiskInfo.set_PartitionData
    DiskInfo.PartitionData Go.elems].
  rewrite map_app. reflexivity.
Qed.

End PartitionList.

(** A disk that was just created (nil list) and [sdb] with its list
    emptied have the same partitions: none. *)
Lemma ToPartition_elems_witness :
  exists partition,
    ToPartition (consts := spec_constants) (NewDiskInfo (consts := spec_constants)) =
      Returns partition (NewDiskInfo (consts := spec_constants)) /\
    ToPartition (consts := spec_constants)
      (DiskInfo.set_PartitionData (Go.mk_slice []) sdb) =
      Returns partition (DiskInfo.set_PartitionData (Go.mk_slice []) sdb).
Proof.
  apply (ToPartition_elems (consts := spec_constants)
           (NewDiskInfo (consts := spec_constants))
           (DiskInfo.set_PartitionData (Go.mk_slice []) sdb)).
  reflexivity.
Defined.

Section DevLinkList.
Context {consts : Constants}.

(** X6: read one entry after the other, the links of the exported devlinks
    are the by-id links followed by the by-path links of the aggregate:
    none is lost, added, reordered or deduplicated. *)
Theorem ToDisk_devlinks_flat (di : DiskInfo.t) :
  exists dr,
    ToDisk di = Returns dr di /\
    concat
      (map (fun link => Go.elems (apis.DiskDevLink.Links link))
         (Go.elems (apis.DiskSpec.DevLinks (apis.Disk.Spec dr)))) =
      (Go.elems (DiskInfo.ByIdDevLinks di) ++
       Go.elems (DiskInfo.ByPathDevLinks di))%list.
Proof.
  destruct (ToDisk_reads di) as [dr Hdr].
  destruct (ToDisk_Spec_fields di dr Hdr) as (_ & _ & _ & Hlinks & _).
  rewrite getDiskLinks_Returns in Hlinks.
  apply Returns_inj in Hlinks as [Hlinks _].
  exists dr. split; [exact Hdr|]. rewrite <- Hlinks. clear Hlinks Hdr dr.
  unfold Go.len.
  destruct (Go.elems (DiskInfo.ByIdDevLinks di)) as [|i0 byId] eqn:Hid;
    destruct (Go.elems (DiskInfo.ByPathDevLinks di)) as [|p0 byPath] eqn:Hpath;
    simpl; rewrite ?Hid, ?Hpath, ?app_nil_r; reflexivity.
Qed.

End DevLinkList.

(** * What the projection reads *)

Section Frame.
Context {consts : Constants}.

(** A slice with at least one element is determined by its elements. *)
Lemma slice_of_elems {A : Type} (a b : Go.slice A) :
  Go.elems a = Go.elems b -> Go.len a <> 0%nat -> a = b.
Proof.
  unfold Go.len. destruct a as [|la], b as [|lb]; simpl; intros He Hlen.
  - contradiction.
  - contradiction.
  - subst la. contradiction.
  - subst la. reflexivity.
Qed.

Lemma devlink_entry_elems (kind : string) (a b : Go.slice string) :
  Go.elems a = Go.elems b ->
  (if Nat.eqb (Go.len a) 0 then []
   else [ {| apis.DiskDevLink.Kind := kind; apis.DiskDevLink.Links := a |} ]) =
  (if Nat.eqb (Go.len b) 0 then []
   else [ {| apis.DiskDevLink.Kind := kind; apis.DiskDevLink.Links := b |} ]).
Proof.
  intros He.
  assert (Hlen : Go.len a = Go.len b) by (unfold Go.len; rewrite He; reflexivity).
  rewrite <- Hlen.
  destruct (Nat.eqb_spec (Go.len a) 0) as [Hz|Hnz]; [reflexivity|].
  rewrite (slice_of_elems a b He Hnz). reflexivity.
Qed.

Lemma getStats_Returns (di : DiskInfo.t) :
  getStats di =
    Returns
      {| apis.DiskStat.TotalBytesRead := DiskInfo.TotalBytesRead di;
         apis.DiskStat.TotalBytesWritten := DiskInfo.TotalBytesWritten di;
         apis.DiskStat.DeviceUtilizationRate := DiskInfo.DeviceUtilizationRate di;
         apis.DiskStat.PercentEnduranceUsed := DiskInfo.PercentEnduranceUsed di;
         apis.DiskStat.TempInfo :=
           if TemperatureInfo.TemperatureDataValid (DiskInfo.TemperatureInfo di)
           then
             {| apis.Temperature.CurrentTemperature :=
                  TemperatureInfo.CurrentTemperature (DiskInfo.TemperatureInfo di);
                apis.Temperature.HighestTemperature :=
                  TemperatureInfo.HighestTemperature (DiskInfo.TemperatureInfo di);
                apis.Temperature.LowestTemperature :=
                  TemperatureInfo.LowestTemperature (DiskInfo.TemperatureInfo di) |}
           else apis.Temperature.zero |}
      di.
Proof.
  unfold getStats, bind, load.
  destruct (TemperatureInfo.TemperatureDataValid (DiskInfo.TemperatureInfo di));
    reflexivity.
Qed.

(** Two aggregates on which the five getters agree project alike. *)
Lemma ToDisk_agree (di di' : DiskInfo.t) (om : metav1.ObjectMeta.t)
    (sp : apis.DiskSpec.t) (ss : apis.DiskStat.t) :
  getObjectMeta di = Returns om di -> getObjectMeta di' = Returns om di' ->
  getDiskSpec di = Returns sp di -> getDiskSpec di' = Returns sp di' ->
  getStats di = Returns ss di -> getStats di' = Returns ss di' ->
  exists dr, ToDisk di = Returns dr di /\ ToDisk di' = Returns dr di'.
Proof.
  intros Hom Hom' Hsp Hsp' Hss Hss'.
  eexists. split; unfold ToDisk.
  - rewrite (bind_Returns _ _ _ _ _ (getTypeMeta_Returns di)),
      (bind_Returns _ _ _ _ _ Hom), (bind_Returns _ _ _ _ _ Hsp),
      (bind_Returns _ _ _ _ _ (getStatus_Returns di)),
      (bind_Returns _ _ _ _ _ Hss).
    reflexivity.
  - rewrite (bind_Returns _ _ _ _ _ (getTypeMeta_Returns di')),
      (bind_Returns _ _ _ _ _ Hom'), (bind_Returns _ _ _ _ _ Hsp'),
      (bind_Returns _ _ _ _ _ (getStatus_Returns di')),
      (bind_Returns _ _ _ _ _ Hss').
    reflexivity.
Qed.

Lemma getDiskSpec_agree (di di' : DiskInfo.t) (cap : apis.DiskCapacity.t)
    (det : apis.DiskDetails.t) :
  DiskInfo.Path di = DiskInfo.Path di' ->
  getDiskCapacity di = Returns cap di -> getDiskCapacity di' = Returns cap di' ->
  getDiskDetails di = Returns det di -> getDiskDetails di' = Returns det di' ->
  Go.elems (DiskInfo.ByIdDevLinks di) = Go.elems (DiskInfo.ByIdDevLinks di') ->
  Go.elems (DiskInfo.ByPathDevLinks di) = Go.elems (DiskInfo.ByPathDevLinks di') ->
  getFileSystemInfo (DiskInfo.FileSystemInformation di) =
    getFileSystemInfo (DiskInfo.FileSystemInformation di') ->
  exists sp, getDiskSpec di = Returns sp di /\ getDiskSpec di' = Returns sp di'.
Proof.
  intros Hpath Hcap Hcap' Hdet Hdet' Hid Hbypath Hfs.
  eexists. split; unfold getDiskSpec, getPath.
  - rewrite (bind_Returns (load DiskInfo.Path) _ di _ di eq_refl),
      (bind_Returns _ _ _ _ _ Hcap), (bind_Returns _ _ _ _ _ Hdet),
      (bind_Returns _ _ _ _ _ (getDiskLinks_Returns di)).
    reflexivity.
  - rewrite (bind_Returns (load DiskInfo.Path) _ di' _ di' eq_refl),
      (bind_Returns _ _ _ _ _ Hcap'), (bind_Returns _ _ _ _ _ Hdet'),
      (bind_Returns _ _ _ _ _ (getDiskLinks_Returns di')).
    unfold bind, load, ret. cbv beta iota.
    rewrite <- Hpath, <- Hfs.
    rewrite <- (devlink_entry_elems "by-id" _ _ Hid).
    rewrite <- (devlink_entry_elems "by-path" _ _ Hbypath).
    reflexivity.
Qed.

(** X7: the fields [ToDisk] depends on.  Two aggregates return the same
    resource as soon as they agree on the uuid, on the node attribute
    stored under [HostNameKey], on the disk type, on the static facts
    (path, capacity, sector sizes, model, serial, vendor, firmware
    revision, compliance, drive type, rotation rate), on the elements of
    the two devlink lists, on the export of their filesystem facts, on the
    four counters, and on the temperature validity flag together with,
    when it is set, the three readings.  Probe identifiers, partition
    records, further node attributes and the per-reading flags play no
    part, nor does it matter whether an empty list is nil. *)
Theorem ToDisk_frame (di di' : DiskInfo.t) :
  DiskInfo.Uuid di = DiskInfo.Uuid di' ->
  Go.index (DiskInfo.NodeAttributes di) HostNameKey =
    Go.index (DiskInfo.NodeAttributes di') HostNameKey ->
  DiskInfo.DiskType di = DiskInfo.DiskType di' ->
  DiskInfo.Path di = DiskInfo.Path di' ->
  DiskInfo.Capacity di = DiskInfo.Capacity di' ->
  DiskInfo.LogicalSectorSize di = DiskInfo.LogicalSectorSize di' ->
  DiskInfo.PhysicalSectorSize di = DiskInfo.PhysicalSectorSize di' ->
  DiskInfo.Model di = DiskInfo.Model di' ->
  DiskInfo.Serial di = DiskInfo.Serial di' ->
  DiskInfo.Vendor di = DiskInfo.Vendor di' ->
  DiskInfo.FirmwareRevision di = DiskInfo.FirmwareRevision di' ->
  DiskInfo.Compliance di = DiskInfo.Compliance di' ->
  DiskInfo.DriveType di = DiskInfo.DriveType di' ->
  DiskInfo.RotationRate di = DiskInfo.RotationRate di' ->
  Go.elems (DiskInfo.ByIdDevLinks di) = Go.elems (DiskInfo.ByIdDevLinks di') ->
  Go.elems (DiskInfo.ByPathDevLinks di) = Go.elems (DiskInfo.ByPathDevLinks di') ->
  getFileSystemInfo (DiskInfo.FileSystemInformation di) =
    getFileSystemInfo (DiskInfo.FileSystemInformation di') ->
  DiskInfo.TotalBytesRead di = DiskInfo.TotalBytesRead di' ->
  DiskInfo.TotalBytesWritten di = DiskInfo.TotalBytesWritten di' ->
  DiskInfo.DeviceUtilizationRate di = DiskInfo.DeviceUtilizationRate di' ->
  DiskInfo.PercentEnduranceUsed di = DiskInfo.PercentEnduranceUsed di' ->
  TemperatureInfo.TemperatureDataValid (DiskInfo.TemperatureInfo di) =
    TemperatureInfo.TemperatureDataValid (DiskInfo.TemperatureInfo di') ->
  (TemperatureInfo.TemperatureDataValid (DiskInfo.TemperatureInfo di) = true ->
   TemperatureInfo.CurrentTemperature (DiskInfo.TemperatureInfo di) =
     TemperatureInfo.CurrentTemperature (DiskInfo.TemperatureInfo di') /\
   TemperatureInfo.HighestTemperature (DiskInfo.TemperatureInfo di) =
     TemperatureInfo.HighestTemperature (DiskInfo.TemperatureInfo di') /\
   TemperatureInfo.LowestTemperature (DiskInfo.TemperatureInfo di) =
     TemperatureInfo.LowestTemperature (DiskInfo.TemperatureInfo di')) ->
  exists dr, ToDisk di = Returns dr di /\ ToDisk di' = Returns dr di'.
Proof.
  intros Huuid Hhost Htype Hpath Hcap Hlss Hpss Hmodel Hserial Hvendor Hfw
    Hcomp Hdrive Hrot Hid Hbypath Hfs Hread Hwritten Hutil Hend Hvalid Htemp.
  destruct (getDiskSpec_agree di di' _ _ Hpath
              (getDiskCapacity_Returns di)
              ltac:(rewrite getDiskCapacity_Returns, Hcap, Hlss, Hpss; reflexivity)
              (getDiskDetails_Returns di)
              ltac:(rewrite getDiskDetails_Returns, Hmodel, Hserial, Hvendor,
                      Hfw, Hcomp, Hdrive, Hrot; reflexivity)
              Hid Hbypath Hfs)
    as (sp & Hsp & Hsp').
  eapply (ToDisk_agree di di').
  - apply getObjectMeta_Returns.
  - rewrite getObjectMeta_Returns, Huuid, Hhost, Htype. reflexivity.
  - exact Hsp.
  - exact Hsp'.
  - apply getStats_Returns.
  - rewrite getStats_Returns, Hread, Hwritten, Hutil, Hend, <- Hvalid.
    destruct (TemperatureInfo.TemperatureDataValid (DiskInfo.TemperatureInfo di));
      [|reflexivity].
    destruct (Htemp eq_refl) as (-> & -> & ->). reflexivity.
Qed.

End Frame.

(** [sdb] and [sdb_rescanned] differ in all that [ToDisk] does not read. *)
Lemma ToDisk_frame_witness :
  sdb <> sdb_rescanned /\
  exists dr,
    ToDisk (consts := spec_constants) sdb = Returns dr sdb /\
    ToDisk (consts := spec_constants) sdb_rescanned = Returns dr sdb_rescanned.
Proof.
  split; [discriminate|].
  apply (ToDisk_frame (consts := spec_constants) sdb sdb_rescanned);
    try reflexivity.
  intros Hvalid. discriminate Hvalid.
Defined.

(** * A disk that was just created *)

Section Fresh.
Context {consts : Constants}.

(** Empty filesystem facts are exported as the zero value, whether or not
    the sentinel is the empty string. *)
Lemma getFileSystemInfo_zero :
  getFileSystemInfo FSInfo.zero = apis.FileSystemInfo.zero.
Proof.
  unfold getFileSystemInfo.
  destruct (String.eqb (FSInfo.FileSystem FSInfo.zero) UDEV_FS_NONE);
    reflexivity.
Qed.

(** X8: a disk that [NewDiskInfo] just returned, with nothing observed yet,
    projects without panic to a resource with an empty name, an all-zero
    spec whose devlinks are the empty sequence (not nil) and whose
    filesystem is the zero value whatever the sentinel is, an all-zero
    stats block and the state [NDMActive]; and it has no partitions. *)
Theorem NewDiskInfo_ToDisk :
  exists dr,
    ToDisk NewDiskInfo = Returns dr NewDiskInfo /\
    metav1.ObjectMeta.Name (apis.Disk.ObjectMeta dr) = "" /\
    apis.Disk.Spec dr =
      {| apis.DiskSpec.Path := "";
         apis.DiskSpec.Capacity :=
           {| apis.DiskCapacity.Storage := 0;
              apis.DiskCapacity.LogicalSectorSize := 0;
              apis.DiskCapacity.PhysicalSectorSize := 0 |};
         apis.DiskSpec.Details :=
           {| apis.DiskDetails.Model := "";
              apis.DiskDetails.Serial := "";
              apis.DiskDetails.Vendor := "";
              apis.DiskDetails.FirmwareRevision := "";
              apis.DiskDetails.Compliance := "";
              apis.DiskDetails.DriveType := "";
              apis.DiskDetails.RotationRate := 0 |};
         apis.DiskSpec.DevLinks := Go.mk_slice [];
         apis.DiskSpec.FileSystem := apis.FileSystemInfo.zero |} /\
    apis.Disk.Stats dr = apis.DiskStat.zero /\
    apis.DiskStatus.State (apis.Disk.Status dr) = NDMActive /\
    ToPartition NewDiskInfo = Returns (Go.mk_slice []) NewDiskInfo.
Proof.
  destruct (ToDisk_reads NewDiskInfo) as [dr Hdr].
  exists dr. split; [exact Hdr|].
  rewrite (ToDisk_ObjectMeta _ dr _ Hdr (getObjectMeta_Returns _)).
  rewrite (ToDisk_Status _ dr _ Hdr (getStatus_Returns _)).
  rewrite (ToDisk_Stats _ dr _ Hdr (getStats_Returns _)).
  destruct (getDiskSpec_Returns NewDiskInfo)
    as (cap & det & links & Hcap & Hdet & Hlinks & Hsp).
  rewrite (ToDisk_Spec _ dr _ Hdr Hsp).
  rewrite getDiskCapacity_Returns in Hcap. apply Returns_inj in Hcap as [<- _].
  rewrite getDiskDetails_Returns in Hdet. apply Returns_inj in Hdet as [<- _].
  rewrite getDiskLinks_Returns in Hlinks. apply Returns_inj in Hlinks as [<- _].
  split; [reflexivity|].
  split.
  - cbn [NewDiskInfo DiskInfo.set_DiskType DiskInfo.set_NodeAttributes
      DiskInfo.zero DiskInfo.FileSystemInformation].
    rewrite getFileSystemInfo_zero. reflexivity.
  - split; [reflexivity|]. split; [reflexivity|].
    rewrite ToPartition_Returns. reflexivity.
Qed.

End Fresh.

(** * What the exported temperature cannot tell *)

Section TemperatureExport.
Context {consts : Constants}.

(** X9: the export carries no validity flag, so an aggregate whose
    temperature block is not valid returns the very resource that it would
    return with a valid block reading 0 degrees three times. *)
Theorem ToDisk_invalid_is_zero_degrees (di : DiskInfo.t) :
  TemperatureInfo.TemperatureDataValid (DiskInfo.TemperatureInfo di) = false ->
  exists dr,
    ToDisk di = Returns dr di /\
    ToDisk
      (DiskInfo.set_TemperatureInfo
         {| TemperatureInfo.TemperatureDataValid := true;
            TemperatureInfo.CurrentTemperature := 0;
            TemperatureInfo.HighestValid := true;
            TemperatureInfo.HighestTemperature := 0;
            TemperatureInfo.LowestValid := true;
            TemperatureInfo.LowestTemperature := 0 |} di) =
      Returns dr
        (DiskInfo.set_TemperatureInfo
           {| TemperatureInfo.TemperatureDataValid := true;
              TemperatureInfo.CurrentTemperature := 0;
              TemperatureInfo.HighestValid := true;
              TemperatureInfo.HighestTemperature := 0;
              TemperatureInfo.LowestValid := true;
              TemperatureInfo.LowestTemperature := 0 |} di).
Proof.
  intros Hv.
  destruct (getDiskSpec_agree di
              (DiskInfo.set_TemperatureInfo
                 {| TemperatureInfo.TemperatureDataValid := true;
                    TemperatureInfo.CurrentTemperature := 0;
                    TemperatureInfo.HighestValid := true;
                    TemperatureInfo.HighestTemperature := 0;
                    TemperatureInfo.LowestValid := true;
                    TemperatureInfo.LowestTemperature := 0 |} di)
              _ _ eq_refl
              (getDiskCapacity_Returns di) (getDiskCapacity_Returns _)
              (getDiskDetails_Returns di) (getDiskDetails_Returns _)
              eq_refl eq_refl eq_refl)
    as (sp & Hsp & Hsp').
  eapply ToDisk_agree.
  - apply getObjectMeta_Returns.
  - rewrite getObjectMeta_Returns. reflexivity.
  - exact Hsp.
  - exact Hsp'.
  - rewrite getStats_Returns, Hv. reflexivity.
  - rewrite getStats_Returns. reflexivity.
Qed.

End TemperatureExport.

(** [sdb] holds 42, 55 and 18 degrees in a block that is not valid. *)
Lemma ToDisk_invalid_is_zero_degrees_witness :
  exists dr,
    ToDisk (consts := spec_constants) sdb = Returns dr sdb /\
    ToDisk (consts := spec_constants)
      (DiskInfo.set_TemperatureInfo
         {| TemperatureInfo.TemperatureDataValid := true;
            TemperatureInfo.CurrentTemperature := 0;
            TemperatureInfo.HighestValid := true;
            TemperatureInfo.HighestTemperature := 0;
            TemperatureInfo.LowestValid := true;
            TemperatureInfo.LowestTemperature := 0 |} sdb) =
      Returns dr
        (DiskInfo.set_TemperatureInfo
           {| TemperatureInfo.TemperatureDataValid := true;
              TemperatureInfo.CurrentTemperature := 0;
              TemperatureInfo.HighestValid := true;
              TemperatureInfo.HighestTemperature := 0;
              TemperatureInfo.LowestValid := true;
              TemperatureInfo.LowestTemperature := 0 |} sdb).
Proof.
  apply (ToDisk_invalid_is_zero_degrees (consts := spec_constants) sdb).
  reflexivity.
Defined.
